(** * OPGL data service: regional routing and data aggregation

    A shallow embedding of the Go packages [internal/models],
    [internal/services] and [internal/api] of the OPGL data service, and
    the properties of the routing tables, of request execution, of the
    composed look-ups and of match normalization.

    Conventions of the embedding
    - a Go [string] is a [string]; a Go [int] / [int64] is a [Z] (the
      service does no arithmetic on them besides comparisons);
    - a Go function returning [(T, error)] returns a [result T]: the code
      returns a usable value exactly when the error is nil;
    - a Go slice keeps the difference between [nil] and an empty slice;
    - the HTTP client is the environment: a state [World] and what the
      method [Do] of a client answers to a request in it; every request
      handed to a client is appended to a log, so that one can state which
      calls were attempted;
    - [encoding/json], [net/url] and [strconv] are parameters. *)

From stdpp Require Import base strings gmap list pretty.

Open Scope string_scope.
Open Scope list_scope.
Open Scope Z_scope.

(** * The Go runtime fragments the service relies on *)

(** ** Errors *)

(** The dynamic type of an [error] value: a plain message ([errors.New],
    [fmt.Errorf] without the verb [%w], and the errors of the standard
    library), or a message wrapping a cause ([fmt.Errorf] with [%w]). *)
Inductive error : Type :=
  | errorString (s : string)
  | wrapError (msg : string) (err : error).

(** The method [Error()]. *)
Definition Error (e : error) : string :=
  match e with
  | errorString s => s
  | wrapError msg _ => msg
  end.

(** [errors.Unwrap]. *)
Definition Unwrap (e : error) : option error :=
  match e with
  | errorString _ => None
  | wrapError _ err => Some err
  end.

(** [fmt.Errorf(prefix + "%w", err)]: the message is the prefix followed by
    the message of the cause, and the cause is kept. *)
Definition fmt_Errorf_w (prefix : string) (err : error) : error :=
  wrapError (prefix +:+ Error err) err.

(** The verb [%d] on an integer is stdpp's [pretty]: decimal digits, with a
    leading minus sign for a negative number. *)
Definition fmt_d (n : Z) : string := pretty n.

(** A value of type [T] together with a nil error, or a non-nil error. *)
Inductive result (T : Type) : Type :=
  | Ok (v : T)
  | Err (e : error).
Arguments Ok {T} v.
Arguments Err {T} e.

(** ** Slices *)

(** A slice is [nil] or holds its elements; [make] and [append] never
    return [nil]. *)
Inductive slice (T : Type) : Type :=
  | nil_slice
  | Slice (elems : list T).
Arguments nil_slice {T}.
Arguments Slice {T} elems.

Definition elems {T} (s : slice T) : list T :=
  match s with
  | nil_slice => []
  | Slice l => l
  end.

Definition len {T} (s : slice T) : nat := length (elems s).

(** [make([]T, n)] and [make([]T, n, capacity)]: [n] zero values; the
    capacity of a slice is not observed by the service. *)
Definition make {T} (zero : T) (n : nat) : slice T := Slice (replicate n zero).

(** [append(s, x)]. *)
Definition append {T} (s : slice T) (x : T) : slice T := Slice (elems s ++ [x]).

(** ** Time *)

(** A [time.Time] as the instant it denotes: seconds since the Unix epoch
    and nanoseconds within the second. *)
Record Time : Type := unixTime { unixSec : Z; nsec : Z }.

(** [time.Unix(sec, nsec)]; Go's [/] truncates toward zero ([Z.quot]). *)
Definition time_Unix (sec nsec : Z) : Time :=
  if bool_decide (nsec < 0 ∨ nsec >= 1000000000) then
    let n := nsec `quot` 1000000000 in
    let sec := sec + n in
    let nsec := nsec - n * 1000000000 in
    if bool_decide (nsec < 0)
    then unixTime (sec - 1) (nsec + 1000000000)
    else unixTime sec nsec
  else unixTime sec nsec.

(** [time.UnixMilli(msec)] is [Unix(msec/1e3, (msec%1e3)*1e6)]. For an
    [int64] argument none of the intermediate values leaves [int64]. *)
Definition time_UnixMilli (msec : Z) : Time :=
  time_Unix (msec `quot` 1000) ((msec `rem` 1000) * 1000000).

(** The method [t.UnixMilli()]: milliseconds since the epoch. *)
Definition Time_UnixMilli (t : Time) : Z :=
  unixSec t * 1000 + nsec t `quot` 1000000.

(** The method [t.UnixNano()], as an unbounded integer: nanoseconds since
    the epoch. *)
Definition Time_UnixNano (t : Time) : Z :=
  unixSec t * 1000000000 + nsec t.

(** * Package models *)

Module models.

Record Summoner : Type := {
  Summoner_ID : string;
  Summoner_AccountID : string;
  Summoner_PUUID : string;
  Summoner_Name : string;
  Summoner_ProfileIconID : Z;
  Summoner_SummonerLevel : Z
}.

Record Participant : Type := {
  PUUID : string;
  SummonerName : string;
  ChampionID : Z;
  ChampionName : string;
  Kills : Z;
  Deaths : Z;
  Assists : Z;
  GoldEarned : Z;
  TotalDamageDealtToChampions : Z;
  TotalDamageTaken : Z;
  VisionScore : Z;
  TotalMinionsKilled : Z;
  Win : bool;
  TeamPosition : string
}.

Record Match : Type := {
  MatchID : string;
  GameCreation : Time;
  GameDuration : Z;
  GameMode : string;
  GameType : string;
  Participants : slice Participant
}.

(** The zero values of the structs. *)
Definition Summoner_zero : Summoner :=
  {| Summoner_ID := ""; Summoner_AccountID := ""; Summoner_PUUID := "";
     Summoner_Name := ""; Summoner_ProfileIconID := 0;
     Summoner_SummonerLevel := 0 |}.

Definition Participant_zero : Participant :=
  {| PUUID := ""; SummonerName := ""; ChampionID := 0; ChampionName := "";
     Kills := 0; Deaths := 0; Assists := 0; GoldEarned := 0;
     TotalDamageDealtToChampions := 0; TotalDamageTaken := 0;
     VisionScore := 0; TotalMinionsKilled := 0; Win := false;
     TeamPosition := "" |}.

(** The zero [time.Time] is January 1, year 1, 00:00:00 UTC. *)
Definition Time_zero : Time := unixTime (-62135596800) 0.

Definition Match_zero : Match :=
  {| MatchID := ""; GameCreation := Time_zero; GameDuration := 0;
     GameMode := ""; GameType := ""; Participants := nil_slice |}.

End models.

(** * The environment: net/http, net/url, encoding/json *)

Record Request : Type := {
  Method : string;
  URL : string;
  Header : list (string * string)
}.

(** [request.Header.Add(key, value)]. *)
Definition Header_Add (request : Request) (key value : string) : Request :=
  {| Method := Method request; URL := URL request;
     Header := Header request ++ [(key, value)] |}.

(** A body to read: the bytes the reader delivers, and the error that ends
    the reading when it is not the end of the body. *)
Record ReadCloser : Type := {
  content : string;
  readErr : option error
}.

(** [io.ReadAll]: the bytes read until the end or the first error. *)
Definition io_ReadAll (r : ReadCloser) : string * option error :=
  (content r, readErr r).

Record Response : Type := {
  StatusCode : Z;
  Body : ReadCloser
}.

Definition http_StatusOK : Z := 200.

(** [json.NewDecoder(r).Decode(&target)]: the target as the decoder leaves
    it (a field the payload does not mention keeps the value it had), or
    the error of the decoder. *)
Class Unmarshal (T : Type) : Type :=
  json_Decode : ReadCloser → T → result T.

(** What the service does not control: the state of the network and of the
    servers behind it; what [Do] of a [http.Client] with the default
    transport returns for a request, a response or an error, after the
    redirects that the client follows and with the error as the client
    wraps it; the URLs that [net/url] refuses to parse. *)
Class Runtime : Type := {
  World : Type;
  DefaultDo : Request → World → result Response * World;
  url_Parse : string → option error
}.

Section Effects.
Context {RT : Runtime}.

(** The state a call runs in: the world, and the requests handed to a
    client so far, one per call of [Do], oldest first. *)
Record Net : Type := { world : World; sent : list Request }.

(** A computation either panics ([None]) or returns a value and the
    state it leaves. *)
Definition M (A : Type) : Type := Net → option (A * Net).

#[export] Instance M_ret : MRet M := λ A (a : A) s, Some (a, s).

#[export] Instance M_bind : MBind M := λ A B (f : A → M B) (m : M A) s,
  match m s with
  | Some (a, s') => f a s'
  | None => None
  end.

(** A run-time panic. *)
Definition panic {A} : M A := λ _, None.

(** [http.Client]: the time limit of a request in nanoseconds (0: none),
    and what its method [Do] returns for a request in a world and the
    world it leaves. What [Do] returns is the business of [net/http] and
    of the transport and the redirect policy of the client: the requests
    that the client sends on its own to follow a redirect are part of
    it. *)
Record Client : Type := {
  Timeout : Z;
  Do : Request → World → result Response * World
}.

(** The state after one more request was handed to a client, whose [Do]
    left the world [w]. *)
Definition after (s : Net) (request : Request) (w : World) : Net :=
  {| world := w; sent := sent s ++ [request] |}.

(** [client.Do(request)]. Time is not part of the world: a request that
    exceeds the time limit is a request for which [Do] returns an
    error. *)
Definition Client_Do (client : Client) (request : Request)
  : M (result Response) := λ s,
  let '(r, w) := Do client request (world s) in
  Some (r, after s request w).

(** [http.NewRequest(method, url, nil)] for a valid method. *)
Definition http_NewRequest (method url : string) : result Request :=
  match url_Parse url with
  | Some err => Err err
  | None => Ok {| Method := method; URL := url; Header := [] |}
  end.

(** [s[i] = x] on a slice: a store out of range panics. *)
Definition store {T} (s : slice T) (i : nat) (x : T) : M (slice T) :=
  if decide (i < len s)%nat then mret (Slice (<[i := x]> (elems s)))
  else panic.

End Effects.

(** * Package services *)

Module services.
Import models.

(** ** The routing tables *)

(** The map literal of [getRegionalURL]. *)
Definition regionalRouting : gmap string string :=
  list_to_map [
    ("na", "na1.api.riotgames.com");
    ("euw", "euw1.api.riotgames.com");
    ("eune", "eun1.api.riotgames.com");
    ("kr", "kr.api.riotgames.com");
    ("br", "br1.api.riotgames.com");
    ("jp", "jp1.api.riotgames.com");
    ("ru", "ru.api.riotgames.com");
    ("oce", "oc1.api.riotgames.com");
    ("tr", "tr1.api.riotgames.com");
    ("lan", "la1.api.riotgames.com");
    ("las", "la2.api.riotgames.com") ].

(** The map literal of [getMatchRegionalURL]. *)
Definition continentalRouting : gmap string string :=
  list_to_map [
    ("na", "americas.api.riotgames.com");
    ("br", "americas.api.riotgames.com");
    ("lan", "americas.api.riotgames.com");
    ("las", "americas.api.riotgames.com");
    ("euw", "europe.api.riotgames.com");
    ("eune", "europe.api.riotgames.com");
    ("tr", "europe.api.riotgames.com");
    ("ru", "europe.api.riotgames.com");
    ("kr", "asia.api.riotgames.com");
    ("jp", "asia.api.riotgames.com");
    ("oce", "sea.api.riotgames.com") ].

(** [m[k]] on a Go map of strings: the zero value when the key is
    missing. *)
Definition index (m : gmap string string) (k : string) : string :=
  default "" (m !! k).

Definition getRegionalURL (region : string) : string :=
  match regionalRouting !! region with
  | Some url => url
  | None => index regionalRouting "na"
  end.

Definition getMatchRegionalURL (region : string) : string :=
  match continentalRouting !! region with
  | Some url => url
  | None => index continentalRouting "na"
  end.

(** ** Request execution and the composed operations *)

(** The anonymous struct the account look-up decodes into. *)
Record accountInfo : Type := {
  accountInfo_PUUID : string;
  accountInfo_GameName : string;
  accountInfo_TagLine : string
}.

Definition accountInfo_zero : accountInfo :=
  {| accountInfo_PUUID := ""; accountInfo_GameName := "";
     accountInfo_TagLine := "" |}.

(** The anonymous struct [rawMatch] of [GetMatchDetails]. *)
Record rawParticipant : Type := {
  raw_PUUID : string;
  raw_SummonerName : string;
  raw_ChampionID : Z;
  raw_ChampionName : string;
  raw_Kills : Z;
  raw_Deaths : Z;
  raw_Assists : Z;
  raw_GoldEarned : Z;
  raw_TotalDamageDealtToChampions : Z;
  raw_TotalDamageTaken : Z;
  raw_VisionScore : Z;
  raw_TotalMinionsKilled : Z;
  raw_Win : bool;
  raw_TeamPosition : string
}.

Record rawMetadata : Type := { raw_MatchID : string }.

Record rawInfo : Type := {
  raw_GameCreation : Z;
  raw_GameDuration : Z;
  raw_GameMode : string;
  raw_GameType : string;
  raw_Participants : slice rawParticipant
}.

Record rawMatch : Type := { Metadata : rawMetadata; Info : rawInfo }.

Definition rawParticipant_zero : rawParticipant :=
  {| raw_PUUID := ""; raw_SummonerName := ""; raw_ChampionID := 0;
     raw_ChampionName := ""; raw_Kills := 0; raw_Deaths := 0;
     raw_Assists := 0; raw_GoldEarned := 0;
     raw_TotalDamageDealtToChampions := 0; raw_TotalDamageTaken := 0;
     raw_VisionScore := 0; raw_TotalMinionsKilled := 0; raw_Win := false;
     raw_TeamPosition := "" |}.

Definition rawMatch_zero : rawMatch :=
  {| Metadata := {| raw_MatchID := "" |};
     Info := {| raw_GameCreation := 0; raw_GameDuration := 0;
                raw_GameMode := ""; raw_GameType := "";
                raw_Participants := nil_slice |} |}.

Section RiotService.
Context {RT : Runtime}.
Context {decodeAccount : Unmarshal accountInfo}
        {decodeSummoner : Unmarshal Summoner}
        {decodeIDs : Unmarshal (slice string)}
        {decodeMatch : Unmarshal rawMatch}.

Record RiotService : Type := {
  apiKey : string;
  httpClient : Client;
  baseURLOverride : string
}.

(** [10 * time.Second], a [time.Duration] in nanoseconds. *)
Definition NewRiotService (apiKey : string) : RiotService :=
  {| apiKey := apiKey;
     httpClient := {| Timeout := 10 * 1000000000;
                      Do := DefaultDo |};
     baseURLOverride := "" |}.

Definition NewRiotServiceWithBaseURL (apiKey baseURL : string)
    (httpClient : Client) : RiotService :=
  {| apiKey := apiKey; httpClient := httpClient;
     baseURLOverride := baseURL |}.

(** [makeRequest(url, &target)]: the decoded target, or the error. The
    target of a failed call is not read by any caller. *)
Definition makeRequest {T} {decode : Unmarshal T} (riotService : RiotService)
    (url : string) (target : T) : M (result T) :=
  match http_NewRequest "GET" url with
  | Err err => mret (Err (fmt_Errorf_w "failed to create request: " err))
  | Ok request =>
    let request := Header_Add request "X-Riot-Token" (apiKey riotService) in
    response ← Client_Do (httpClient riotService) request;
    match response with
    | Err err =>
        mret (Err (fmt_Errorf_w "failed to execute request: " err))
    | Ok response =>
        if bool_decide (StatusCode response ≠ http_StatusOK) then
          let '(body, _) := io_ReadAll (Body response) in
          mret (Err (errorString
            ("API request failed with status "
               +:+ fmt_d (StatusCode response) +:+ ": " +:+ body)))
        else
          match json_Decode (Body response) target with
          | Err err =>
              mret (Err (fmt_Errorf_w "failed to decode response: " err))
          | Ok target => mret (Ok target)
          end
    end
  end.

Definition buildURL (riotService : RiotService) (baseURL path : string)
    : string :=
  if bool_decide (baseURLOverride riotService ≠ "")
  then baseURLOverride riotService +:+ path
  else "https://" +:+ baseURL +:+ path.

Definition GetSummonerByPUUID (riotService : RiotService)
    (region puuid : string) : M (result Summoner) :=
  let baseURL := getRegionalURL region in
  let path := "/lol/summoner/v4/summoners/by-puuid/" +:+ puuid in
  let url := buildURL riotService baseURL path in
  r ← makeRequest riotService url Summoner_zero;
  match r with
  | Err err => mret (Err (fmt_Errorf_w "failed to get summoner: " err))
  | Ok summoner => mret (Ok summoner)
  end.

Definition GetSummonerByRiotID (riotService : RiotService)
    (region gameName tagLine : string) : M (result Summoner) :=
  let accountURL := getMatchRegionalURL region in
  let accountPath :=
    "/riot/account/v1/accounts/by-riot-id/" +:+ gameName +:+ "/"
      +:+ tagLine in
  let accountEndpoint := buildURL riotService accountURL accountPath in
  r ← makeRequest riotService accountEndpoint accountInfo_zero;
  match r with
  | Err err => mret (Err (fmt_Errorf_w "failed to get account info: " err))
  | Ok accountInfo =>
      GetSummonerByPUUID riotService region (accountInfo_PUUID accountInfo)
  end.

(** The struct literal of the loop body of [GetMatchDetails]. *)
Definition copyParticipant (participant : rawParticipant) : Participant :=
  {| PUUID := raw_PUUID participant;
     SummonerName := raw_SummonerName participant;
     ChampionID := raw_ChampionID participant;
     ChampionName := raw_ChampionName participant;
     Kills := raw_Kills participant;
     Deaths := raw_Deaths participant;
     Assists := raw_Assists participant;
     GoldEarned := raw_GoldEarned participant;
     TotalDamageDealtToChampions :=
       raw_TotalDamageDealtToChampions participant;
     TotalDamageTaken := raw_TotalDamageTaken participant;
     VisionScore := raw_VisionScore participant;
     TotalMinionsKilled := raw_TotalMinionsKilled participant;
     Win := raw_Win participant;
     TeamPosition := raw_TeamPosition participant |}.

(** [match.Participants = participants]. *)
Definition withParticipants (match_ : Match)
    (participants : slice Participant) : Match :=
  {| MatchID := MatchID match_;
     GameCreation := GameCreation match_;
     GameDuration := GameDuration match_;
     GameMode := GameMode match_;
     GameType := GameType match_;
     Participants := participants |}.

(** [for i, participant := range ... { match.Participants[i] = ... }],
    from index [i] on. *)
Fixpoint rangeParticipants (i : nat) (participants : list rawParticipant)
    (match_ : Match) : M Match :=
  match participants with
  | [] => mret match_
  | participant :: rest =>
      stored ← store (Participants match_) i (copyParticipant participant);
      rangeParticipants (S i) rest (withParticipants match_ stored)
  end.

(** The deferred [response.Body.Close()] of [makeRequest] has no effect
    that the service observes. *)
Definition GetMatchDetails (riotService : RiotService)
    (region matchID : string) : M (result Match) :=
  let baseURL := getMatchRegionalURL region in
  let path := "/lol/match/v5/matches/" +:+ matchID in
  let url := buildURL riotService baseURL path in
  r ← makeRequest riotService url rawMatch_zero;
  match r with
  | Err err =>
      mret (Err (fmt_Errorf_w "failed to get match details: " err))
  | Ok rawMatch =>
      let match_ :=
        {| MatchID := raw_MatchID (Metadata rawMatch);
           GameCreation := time_UnixMilli (raw_GameCreation (Info rawMatch));
           GameDuration := raw_GameDuration (Info rawMatch);
           GameMode := raw_GameMode (Info rawMatch);
           GameType := raw_GameType (Info rawMatch);
           Participants :=
             make Participant_zero
               (len (raw_Participants (Info rawMatch))) |} in
      match_ ←
        rangeParticipants 0 (elems (raw_Participants (Info rawMatch)))
          match_;
      mret (Ok match_)
  end.

(** [for _, matchID := range matchIDs { ... }] with the slice [matches]
    accumulated so far. *)
Fixpoint rangeMatchIDs (riotService : RiotService) (region : string)
    (matchIDs : list string) (matches : slice Match) : M (slice Match) :=
  match matchIDs with
  | [] => mret matches
  | matchID :: rest =>
      r ← GetMatchDetails riotService region matchID;
      match r with
      | Err _ => rangeMatchIDs riotService region rest matches
      | Ok match_ =>
          rangeMatchIDs riotService region rest (append matches match_)
      end
  end.

Definition GetMatchHistory (riotService : RiotService)
    (region puuid : string) (count : Z) : M (result (slice Match)) :=
  let baseURL := getMatchRegionalURL region in
  let path :=
    "/lol/match/v5/matches/by-puuid/" +:+ puuid +:+ "/ids?start=0&count="
      +:+ fmt_d count in
  let matchListURL := buildURL riotService baseURL path in
  r ← makeRequest riotService matchListURL (nil_slice : slice string);
  match r with
  | Err err => mret (Err (fmt_Errorf_w "failed to get match list: " err))
  | Ok matchIDs =>
      matches ←
        rangeMatchIDs riotService region (elems matchIDs)
          (make Match_zero 0);
      mret (Ok matches)
  end.

End RiotService.

End services.

(** * Package services, first generation

    The service before [baseURLOverride] and the Riot-ID look-up were
    added. The routing tables, the struct [rawMatch] and the loop over the
    participants have the same text as above and are shared. *)

Module legacy.
Import models.

Section RiotService.
Context {RT : Runtime}.
Context {decodeSummoner : Unmarshal Summoner}
        {decodeIDs : Unmarshal (slice string)}
        {decodeMatch : Unmarshal services.rawMatch}.

Record RiotService : Type := {
  apiKey : string;
  httpClient : Client
}.

Definition NewRiotService (apiKey : string) : RiotService :=
  {| apiKey := apiKey;
     httpClient := {| Timeout := 10 * 1000000000;
                      Do := DefaultDo |} |}.

Definition makeRequest {T} {decode : Unmarshal T} (riotService : RiotService)
    (url : string) (target : T) : M (result T) :=
  match http_NewRequest "GET" url with
  | Err err => mret (Err (fmt_Errorf_w "failed to create request: " err))
  | Ok request =>
    let request := Header_Add request "X-Riot-Token" (apiKey riotService) in
    response ← Client_Do (httpClient riotService) request;
    match response with
    | Err err => mret (Err (fmt_Errorf_w "failed to execute request: " err))
    | Ok response =>
        if bool_decide (StatusCode response ≠ http_StatusOK) then
          let '(body, _) := io_ReadAll (Body response) in
          mret (Err (errorString
            ("API request failed with status "
               +:+ fmt_d (StatusCode response) +:+ ": " +:+ body)))
        else
          match json_Decode (Body response) target with
          | Err err =>
              mret (Err (fmt_Errorf_w "failed to decode response: " err))
          | Ok target => mret (Ok target)
          end
    end
  end.

Definition GetSummonerByName (riotService : RiotService)
    (region summonerName : string) : M (result Summoner) :=
  let baseURL := services.getRegionalURL region in
  let url :=
    "https://" +:+ baseURL +:+ "/lol/summoner/v4/summoners/by-name/"
      +:+ summonerName in
  r ← makeRequest riotService url Summoner_zero;
  match r with
  | Err err => mret (Err (fmt_Errorf_w "failed to get summoner: " err))
  | Ok summoner => mret (Ok summoner)
  end.

Definition GetMatchDetails (riotService : RiotService)
    (region matchID : string) : M (result Match) :=
  let baseURL := services.getMatchRegionalURL region in
  let url := "https://" +:+ baseURL +:+ "/lol/match/v5/matches/" +:+ matchID in
  r ← makeRequest riotService url services.rawMatch_zero;
  match r with
  | Err err => mret (Err (fmt_Errorf_w "failed to get match details: " err))
  | Ok rawMatch =>
      let match_ :=
        {| MatchID := services.raw_MatchID (services.Metadata rawMatch);
           GameCreation :=
             time_UnixMilli
               (services.raw_GameCreation (services.Info rawMatch));
           GameDuration := services.raw_GameDuration (services.Info rawMatch);
           GameMode := services.raw_GameMode (services.Info rawMatch);
           GameType := services.raw_GameType (services.Info rawMatch);
           Participants :=
             make Participant_zero
               (len (services.raw_Participants (services.Info rawMatch))) |}
      in
      match_ ←
        services.rangeParticipants 0
          (elems (services.raw_Participants (services.Info rawMatch))) match_;
      mret (Ok match_)
  end.

Fixpoint rangeMatchIDs (riotService : RiotService) (region : string)
    (matchIDs : list string) (matches : slice Match) : M (slice Match) :=
  match matchIDs with
  | [] => mret matches
  | matchID :: rest =>
      r ← GetMatchDetails riotService region matchID;
      match r with
      | Err _ => rangeMatchIDs riotService region rest matches
      | Ok match_ =>
          rangeMatchIDs riotService region rest (append matches match_)
      end
  end.

Definition GetMatchHistory (riotService : RiotService)
    (region puuid : string) (count : Z) : M (result (slice Match)) :=
  let baseURL := services.getMatchRegionalURL region in
  let matchListURL :=
    "https://" +:+ baseURL +:+ "/lol/match/v5/matches/by-puuid/" +:+ puuid
      +:+ "/ids?start=0&count=" +:+ fmt_d count in
  r ← makeRequest riotService matchListURL (nil_slice : slice string);
  match r with
  | Err err => mret (Err (fmt_Errorf_w "failed to get match list: " err))
  | Ok matchIDs =>
      matches ←
        rangeMatchIDs riotService region (elems matchIDs) (make Match_zero 0);
      mret (Ok matches)
  end.

(** The same service seen as one of the second generation: no override of
    the base URL. *)
Definition upgrade (riotService : RiotService) : services.RiotService :=
  {| services.apiKey := apiKey riotService;
     services.httpClient := httpClient riotService;
     services.baseURLOverride := "" |}.

End RiotService.

End legacy.

(** * Package api *)

Module api.
Import models.

(** [strconv.Atoi]. *)
Class Strconv : Type := strconv_Atoi : string → result Z.

(** What a handler reads of a [*http.Request]: the body, the variables of
    the route ([mux.Vars]) and the query of the URL. *)
Record http_Request : Type := {
  request_Body : ReadCloser;
  request_Vars : gmap string string;
  request_Query : gmap string (list string)
}.

(** [vars[key]]. *)
Definition Vars_get (vars : gmap string string) (key : string) : string :=
  default "" (vars !! key).

(** [url.Values.Get]: the first value of the key, or the empty string. *)
Definition Values_Get (values : gmap string (list string)) (key : string)
  : string :=
  match values !! key with
  | Some (v :: _) => v
  | _ => ""
  end.

(** What a handler writes: [http.Error(writer, msg, code)], or the header
    [Content-Type: application/json] and the JSON encoding of a value. *)
Inductive Reply (T : Type) : Type :=
  | http_Error (msg : string) (code : Z)
  | json_Encode (v : T).
Arguments http_Error {T} msg code.
Arguments json_Encode {T} v.

Definition http_StatusBadRequest : Z := 400.
Definition http_StatusInternalServerError : Z := 500.

(** The anonymous struct [matchRequest] of [GetMatchesByRiotID]. *)
Record matchRequest : Type := {
  Region : string;
  GameName : string;
  TagLine : string;
  PUUID : string;
  Count : Z
}.

Definition matchRequest_zero : matchRequest :=
  {| Region := ""; GameName := ""; TagLine := ""; PUUID := ""; Count := 0 |}.

Section Handler.
Context {RT : Runtime}.
Context {decodeRequest : Unmarshal matchRequest} {strconv : Strconv}.

(** [services.RiotServiceInterface]. *)
Record RiotServiceInterface : Type := {
  GetSummonerByRiotID : string → string → string → M (result Summoner);
  GetSummonerByPUUID : string → string → M (result Summoner);
  GetMatchHistory : string → string → Z → M (result (slice Match));
  GetMatchDetails : string → string → M (result Match)
}.

Record Handler : Type := { riotService : RiotServiceInterface }.

Definition NewHandler (riotService : RiotServiceInterface) : Handler :=
  {| riotService := riotService |}.

(** The handler of [POST /api/v1/matches]. The identity is resolved to a
    PUUID first; [inr] carries the reply of an early return. *)
Definition GetMatchesByRiotID (handler : Handler) (request : http_Request)
  : M (Reply (slice Match)) :=
  match json_Decode (request_Body request) matchRequest_zero with
  | Err _ => mret (http_Error "Invalid request body" http_StatusBadRequest)
  | Ok matchRequest =>
    if bool_decide (Region matchRequest = "") then
      mret (http_Error "region is required" http_StatusBadRequest)
    else
      resolved ←
        (if bool_decide (PUUID matchRequest ≠ "") then
           mret (inl (PUUID matchRequest))
         else if bool_decide (GameName matchRequest ≠ ""
                              ∧ TagLine matchRequest ≠ "") then
           r ← GetSummonerByRiotID (riotService handler)
                 (Region matchRequest) (GameName matchRequest)
                 (TagLine matchRequest);
           match r with
           | Err err =>
               mret (inr (http_Error (Error err)
                            http_StatusInternalServerError))
           | Ok summoner => mret (inl (Summoner_PUUID summoner))
           end
         else
           mret (inr (http_Error
                        "either (gameName and tagLine) or puuid is required"
                        http_StatusBadRequest)));
      match resolved with
      | inr reply => mret reply
      | inl puuid =>
          let count := Count matchRequest in
          let count := if bool_decide (count ≤ 0)%Z then 20 else count in
          r ← GetMatchHistory (riotService handler) (Region matchRequest)
                puuid count;
          match r with
          | Err err =>
              mret (http_Error (Error err) http_StatusInternalServerError)
          | Ok matches => mret (json_Encode matches)
          end
      end
  end.

(** The handler of [GET /api/v1/matches/{region}/{puuid}] of the first
    generation of the HTTP surface. *)
Definition GetMatches (handler : Handler) (request : http_Request)
  : M (Reply (slice Match)) :=
  let vars := request_Vars request in
  let region := Vars_get vars "region" in
  let puuid := Vars_get vars "puuid" in
  let countStr := Values_Get (request_Query request) "count" in
  let count := 20 in
  let count :=
    if bool_decide (countStr ≠ "") then
      match strconv_Atoi countStr with
      | Ok parsedCount =>
          if bool_decide (parsedCount > 0)%Z then parsedCount else count
      | Err _ => count
      end
    else count in
  r ← GetMatchHistory (riotService handler) region puuid count;
  match r with
  | Err err => mret (http_Error (Error err) http_StatusInternalServerError)
  | Ok matches => mret (json_Encode matches)
  end.

End Handler.

(** [*services.RiotService] implements the interface. *)
Definition RiotService_interface {RT : Runtime}
    {decodeAccount : Unmarshal services.accountInfo}
    {decodeSummoner : Unmarshal Summoner}
    {decodeIDs : Unmarshal (slice string)}
    {decodeMatch : Unmarshal services.rawMatch}
    (riotService : services.RiotService) : RiotServiceInterface :=
  {| GetSummonerByRiotID := services.GetSummonerByRiotID riotService;
     GetSummonerByPUUID := services.GetSummonerByPUUID riotService;
     GetMatchHistory := services.GetMatchHistory riotService;
     GetMatchDetails := services.GetMatchDetails riotService |}.

(** The anonymous struct [summonerRequest] of the handler
    [GetSummonerByRiotID]. *)
Record summonerRequest : Type := {
  summonerRequest_Region : string;
  summonerRequest_GameName : string;
  summonerRequest_TagLine : string
}.

Definition summonerRequest_zero : summonerRequest :=
  {| summonerRequest_Region := ""; summonerRequest_GameName := "";
     summonerRequest_TagLine := "" |}.

Section SummonerHandler.
Context {RT : Runtime}.
Context {decodeSummonerRequest : Unmarshal summonerRequest}.

(** The handler [GetSummonerByRiotID] of [POST /api/v1/summoner]; the
    method of the service it calls has the same name. *)
Definition Handler_GetSummonerByRiotID (handler : Handler)
    (request : http_Request) : M (Reply Summoner) :=
  match json_Decode (request_Body request) summonerRequest_zero with
  | Err _ => mret (http_Error "Invalid request body" http_StatusBadRequest)
  | Ok summonerRequest =>
    if bool_decide (summonerRequest_Region summonerRequest = ""
                    ∨ summonerRequest_GameName summonerRequest = ""
                    ∨ summonerRequest_TagLine summonerRequest = "") then
      mret (http_Error "region, gameName, and tagLine are required"
              http_StatusBadRequest)
    else
      r ← GetSummonerByRiotID (riotService handler)
            (summonerRequest_Region summonerRequest)
            (summonerRequest_GameName summonerRequest)
            (summonerRequest_TagLine summonerRequest);
      match r with
      | Err err =>
          mret (http_Error (Error err) http_StatusInternalServerError)
      | Ok summoner => mret (json_Encode summoner)
      end
  end.

(** The handler [GetSummonerByRiotID] of the first generation of the HTTP
    surface: the identity comes from the variables of the route. *)
Definition Vars_GetSummonerByRiotID (handler : Handler)
    (request : http_Request) : M (Reply Summoner) :=
  let vars := request_Vars request in
  let region := Vars_get vars "region" in
  let gameName := Vars_get vars "gameName" in
  let tagLine := Vars_get vars "tagLine" in
  r ← GetSummonerByRiotID (riotService handler) region gameName tagLine;
  match r with
  | Err err => mret (http_Error (Error err) http_StatusInternalServerError)
  | Ok summoner => mret (json_Encode summoner)
  end.

End SummonerHandler.

End api.

(** * Package config *)

Module config.

Record Config : Type := {
  RiotAPIKey : string;
  ServerPort : string;
  DatabaseURL : string
}.

(** [os.Getenv] on the environment of the process: the empty string for a
    variable that is not set. *)
Definition os_Getenv (env : gmap string string) (key : string) : string :=
  default "" (env !! key).

(** [LoadConfig]: the configuration, and the lines it logs. *)
Definition LoadConfig (env : gmap string string) : Config * list string :=
  let riotAPIKey := os_Getenv env "RIOT_API_KEY" in
  let logged :=
    if bool_decide (riotAPIKey = "")
    then ["Warning: RIOT_API_KEY not set. API calls will fail."]
    else [] in
  let serverPort := os_Getenv env "PORT" in
  let serverPort :=
    if bool_decide (serverPort = "") then "8080" else serverPort in
  let databaseURL := os_Getenv env "DATABASE_URL" in
  ({| RiotAPIKey := riotAPIKey; ServerPort := serverPort;
      DatabaseURL := databaseURL |}, logged).

(** [LoadConfig] of the generation that reads a [.env] file first:
    [godotenv.Load], a parameter, leaves the environment the variables are
    read from; the default port is 8081. *)
Definition LoadConfig_dotenv
    (godotenv_Load : gmap string string → gmap string string)
    (env : gmap string string) : Config * list string :=
  let env := godotenv_Load env in
  let riotAPIKey := os_Getenv env "RIOT_API_KEY" in
  let logged :=
    if bool_decide (riotAPIKey = "")
    then ["Warning: RIOT_API_KEY not set. API calls will fail."]
    else [] in
  let serverPort := os_Getenv env "PORT" in
  let serverPort :=
    if bool_decide (serverPort = "") then "8081" else serverPort in
  let databaseURL := os_Getenv env "DATABASE_URL" in
  ({| RiotAPIKey := riotAPIKey; ServerPort := serverPort;
      DatabaseURL := databaseURL |}, logged).

End config.

(** * Notions used to state the properties *)

(** The region codes of the routing tables. *)
Definition regions : list string :=
  ["na"; "euw"; "eune"; "kr"; "br"; "jp"; "ru"; "oce"; "tr"; "lan"; "las"].

Section Fetches.
Context {RT : Runtime}.
Context {decodeAccount : Unmarshal services.accountInfo}
        {decodeSummoner : Unmarshal models.Summoner}
        {decodeIDs : Unmarshal (slice string)}
        {decodeMatch : Unmarshal services.rawMatch}.

(** The detail fetches of a listing, one per match ID and in the order of
    the listing, with the outcome of each. *)
Fixpoint fetchEach (riotService : services.RiotService) (region : string)
    (matchIDs : list string) : M (list (result models.Match)) :=
  match matchIDs with
  | [] => mret []
  | matchID :: rest =>
      r ← services.GetMatchDetails riotService region matchID;
      rs ← fetchEach riotService region rest;
      mret (r :: rs)
  end.

(** The request [makeRequest] hands to the client for a URL. *)
Definition requestFor (riotService : services.RiotService) (url : string)
  : Request :=
  Header_Add {| Method := "GET"; URL := url; Header := [] |}
    "X-Riot-Token" (services.apiKey riotService).

(** The URLs of the four upstream calls. *)
Definition accountEndpoint (riotService : services.RiotService)
    (region gameName tagLine : string) : string :=
  services.buildURL riotService (services.getMatchRegionalURL region)
    ("/riot/account/v1/accounts/by-riot-id/" +:+ gameName +:+ "/"
       +:+ tagLine).

Definition summonerURL (riotService : services.RiotService)
    (region puuid : string) : string :=
  services.buildURL riotService (services.getRegionalURL region)
    ("/lol/summoner/v4/summoners/by-puuid/" +:+ puuid).

Definition matchListURL (riotService : services.RiotService)
    (region puuid : string) (count : Z) : string :=
  services.buildURL riotService (services.getMatchRegionalURL region)
    ("/lol/match/v5/matches/by-puuid/" +:+ puuid +:+ "/ids?start=0&count="
       +:+ fmt_d count).

Definition matchURL (riotService : services.RiotService)
    (region matchID : string) : string :=
  services.buildURL riotService (services.getMatchRegionalURL region)
    ("/lol/match/v5/matches/" +:+ matchID).

End Fetches.

(** The three kinds of error of request execution, as [makeRequest]
    builds them: the answer has a status that is not accepted, no answer was
    obtained, the body of the answer does not decode. *)
Definition UpstreamError (status : Z) (body : string) : error :=
  errorString
    ("API request failed with status " +:+ fmt_d status +:+ ": " +:+ body).

Definition TransportError (cause : error) : error :=
  fmt_Errorf_w "failed to execute request: " cause.

Definition DecodeError (cause : error) : error :=
  fmt_Errorf_w "failed to decode response: " cause.




(** The match a decoded payload is normalized to. *)
Definition normalize (rawMatch : services.rawMatch) : models.Match :=
  let info := services.Info rawMatch in
  {| models.MatchID := services.raw_MatchID (services.Metadata rawMatch);
     models.GameCreation := time_UnixMilli (services.raw_GameCreation info);
     models.GameDuration := services.raw_GameDuration info;
     models.GameMode := services.raw_GameMode info;
     models.GameType := services.raw_GameType info;
     models.Participants :=
       Slice (services.copyParticipant
                <$> elems (services.raw_Participants info)) |}.

(** An outcome with a nil error. *)
Definition is_Ok {T} (r : result T) : bool :=
  match r with
  | Ok _ => true
  | Err _ => false
  end.

(** The matches among the outcomes of detail fetches, in their order. *)
Definition successes (outs : list (result models.Match))
  : list models.Match :=
  omap (λ r, match r with Ok m => Some m | Err _ => None end) outs.

(** The errors among the outcomes of detail fetches, in their order. *)
Definition failures (outs : list (result models.Match)) : list error :=
  omap (λ r, match r with Ok _ => None | Err err => Some err end) outs.

(** The hosts of the two routing tables. *)
Definition platformHosts : list string :=
  [ "na1.api.riotgames.com"; "euw1.api.riotgames.com";
    "eun1.api.riotgames.com"; "kr.api.riotgames.com";
    "br1.api.riotgames.com"; "jp1.api.riotgames.com";
    "ru.api.riotgames.com"; "oc1.api.riotgames.com";
    "tr1.api.riotgames.com"; "la1.api.riotgames.com";
    "la2.api.riotgames.com" ].

Definition continentalHosts : list string :=
  [ "americas.api.riotgames.com"; "europe.api.riotgames.com";
    "asia.api.riotgames.com"; "sea.api.riotgames.com" ].

(** The codes a handler replies with. *)
Definition replyCode {T} (reply : api.Reply T) : Z :=
  match reply with
  | api.http_Error _ code => code
  | api.json_Encode _ => http_StatusOK
  end.

(** What a matches handler writes after its call of [GetMatchHistory]. *)
Definition written {RT : Runtime}
    (out : option (result (slice models.Match) * Net))
  : option (api.Reply (slice models.Match) * Net) :=
  match out with
  | Some (Ok matches, s) => Some (api.json_Encode matches, s)
  | Some (Err err, s) =>
      Some (api.http_Error (Error err) api.http_StatusInternalServerError, s)
  | None => None
  end.

(** * A stub server

    A client that answers by URL, as the clients of the test servers of
    the service do, with the decoders restricted to the payloads it serves; the world
    records the counts a mock service was called with. *)

Module httptest.
Import models.

Definition dq : string := String (Ascii.ascii_of_nat 34) "".
Definition q (s : string) : string := dq +:+ s +:+ dq.

Definition baseURL : string := "http://stub".

Definition idsPayload : string :=
  "[" +:+ q "NA1_123" +:+ "," +:+ q "NA1_124" +:+ "]".

Definition onePayload : string := "[" +:+ q "NA1_123" +:+ "]".

Definition matchPayload : string :=
  "{" +:+ q "metadata" +:+ ":{" +:+ q "matchId" +:+ ":" +:+ q "NA1_123"
    +:+ "}," +:+ q "info" +:+ ":{" +:+ q "gameCreation"
    +:+ ":1700000000000," +:+ q "gameDuration" +:+ ":1800,"
    +:+ q "gameMode" +:+ ":" +:+ q "CLASSIC" +:+ "," +:+ q "gameType"
    +:+ ":" +:+ q "MATCHED_GAME" +:+ "," +:+ q "participants" +:+ ":[]}}".

Definition matchDecoded : services.rawMatch :=
  {| services.Metadata := {| services.raw_MatchID := "NA1_123" |};
     services.Info :=
       {| services.raw_GameCreation := 1700000000000;
          services.raw_GameDuration := 1800;
          services.raw_GameMode := "CLASSIC";
          services.raw_GameType := "MATCHED_GAME";
          services.raw_Participants := Slice [] |} |}.

Definition requestPayload : string :=
  "{" +:+ q "region" +:+ ":" +:+ q "na" +:+ "," +:+ q "puuid" +:+ ":"
    +:+ q "test-puuid" +:+ "}".

Definition requestPayload5 : string :=
  "{" +:+ q "region" +:+ ":" +:+ q "na" +:+ "," +:+ q "puuid" +:+ ":"
    +:+ q "test-puuid" +:+ "," +:+ q "count" +:+ ":5}".

Definition respond (code : Z) (body : string) : result Response :=
  Ok {| StatusCode := code;
        Body := {| content := body; readErr := None |} |}.

(** The error [Do] returns when the host of the URL is not found: a
    [*url.Error] that names the request and wraps the error of the dial. *)
Definition noSuchHost : error :=
  wrapError
    ("Get " +:+ q (baseURL +:+ "/unreachable")
       +:+ ": dial tcp: lookup stub: no such host")
    (errorString "dial tcp: lookup stub: no such host").

Definition routes : gmap string (result Response) :=
  list_to_map [
    (baseURL +:+ "/lol/match/v5/matches/by-puuid/test-puuid/ids?start=0&count=10",
     respond 200 idsPayload);
    (baseURL +:+ "/lol/match/v5/matches/by-puuid/other-puuid/ids?start=0&count=10",
     respond 200 onePayload);
    (baseURL +:+ "/lol/match/v5/matches/NA1_123", respond 200 matchPayload);
    (baseURL +:+ "/lol/match/v5/matches/NA1_125", respond 200 "{}");
    (baseURL +:+ "/riot/account/v1/accounts/by-riot-id/TestPlayer/NA1",
     respond 200 "{}");
    (baseURL +:+ "/created", respond 201 "{}");
    (baseURL +:+ "/limited", respond 429 "Rate limit exceeded");
    (baseURL +:+ "/garbled", respond 200 "invalid json");
    (baseURL +:+ "/unreachable", Err noSuchHost) ].

Definition serve (request : Request) (w : list Z)
  : result Response * list Z :=
  (default (respond 404 "Not found") (routes !! URL request), w).

Definition runtime : Runtime :=
  {| World := list Z; DefaultDo := serve; url_Parse := λ _, None |}.

Definition invalid_character : error :=
  errorString "invalid character 'i' looking for beginning of value".

Definition invalid {T} : result T := Err invalid_character.

Definition decodeIDs : Unmarshal (slice string) := λ r target,
  if bool_decide (content r = idsPayload) then Ok (Slice ["NA1_123"; "NA1_124"])
  else if bool_decide (content r = onePayload) then Ok (Slice ["NA1_123"])
  else if bool_decide (content r = "[]") then Ok (Slice [])
  else invalid.

Definition decodeMatch : Unmarshal services.rawMatch := λ r target,
  if bool_decide (content r = matchPayload) then Ok matchDecoded
  else if bool_decide (content r = "{}") then Ok target
  else invalid.

Definition decodeObject {T} : Unmarshal T := λ r target,
  if bool_decide (content r = "{}") then Ok target else invalid.

Definition decodeRequest : Unmarshal api.matchRequest := λ r target,
  if bool_decide (content r = requestPayload) then
    Ok {| api.Region := "na"; api.GameName := api.GameName target;
          api.TagLine := api.TagLine target; api.PUUID := "test-puuid";
          api.Count := api.Count target |}
  else if bool_decide (content r = requestPayload5) then
    Ok {| api.Region := "na"; api.GameName := api.GameName target;
          api.TagLine := api.TagLine target; api.PUUID := "test-puuid";
          api.Count := 5 |}
  else invalid.

Definition atoi : api.Strconv := λ s,
  if bool_decide (s = "5") then Ok 5
  else if bool_decide (s = "0") then Ok 0
  else if bool_decide (s = "-3") then Ok (-3)
  else Err (errorString "strconv.Atoi: invalid syntax").

Definition client : Client (RT := runtime) :=
  @Build_Client runtime 0 serve.

Definition service : services.RiotService (RT := runtime) :=
  services.NewRiotServiceWithBaseURL "test-api-key" baseURL client.

(** A mock of the service that records the count it is called with. *)
Definition mock : api.RiotServiceInterface (RT := runtime) :=
  {| api.GetSummonerByRiotID := λ _ _ _, mret (Ok Summoner_zero);
     api.GetSummonerByPUUID := λ _ _, mret (Ok Summoner_zero);
     api.GetMatchHistory := λ _ _ count (s : Net (RT := runtime)),
       Some (Ok (Slice []),
             @Build_Net runtime (world s ++ [count])%list (sent s));
     api.GetMatchDetails := λ _ _, mret (Ok Match_zero) |}.

Definition start : Net (RT := runtime) := @Build_Net runtime [] [].

(** The state after the requests for these URLs, from [start]. *)
Definition requested (urls : list string) : Net (RT := runtime) :=
  @Build_Net runtime []
    ((λ url, Header_Add {| Method := "GET"; URL := baseURL +:+ url;
                           Header := [] |} "X-Riot-Token" "test-api-key")
       <$> urls).

(** Requests of the handlers: bodies and queries. *)
Definition post (body : string) : api.http_Request :=
  {| api.request_Body := {| content := body; readErr := None |};
     api.request_Vars := ∅; api.request_Query := ∅ |}.

Definition get (count : list string) : api.http_Request :=
  {| api.request_Body := {| content := ""; readErr := None |};
     api.request_Vars :=
       list_to_map [("region", "na"); ("puuid", "test-puuid")];
     api.request_Query := list_to_map [("count", count)] |}.

Definition notFound : error :=
  errorString "API request failed with status 404: Not found".

End httptest.

(** * A second stub server

    It serves an account and its summoner, and its runtime refuses to
    parse one URL. *)

Module httptest2.
Import models.

Definition q (s : string) : string := httptest.q s.

Definition accountPayload : string :=
  "{" +:+ q "puuid" +:+ ":" +:+ q "test-puuid" +:+ "," +:+ q "gameName"
    +:+ ":" +:+ q "TestPlayer" +:+ "," +:+ q "tagLine" +:+ ":" +:+ q "NA1"
    +:+ "}".

Definition accountDecoded : services.accountInfo :=
  {| services.accountInfo_PUUID := "test-puuid";
     services.accountInfo_GameName := "TestPlayer";
     services.accountInfo_TagLine := "NA1" |}.

Definition summonerPayload : string :=
  "{" +:+ q "id" +:+ ":" +:+ q "summoner-id" +:+ "," +:+ q "puuid" +:+ ":"
    +:+ q "test-puuid" +:+ "," +:+ q "summonerLevel" +:+ ":100}".

Definition summonerDecoded : Summoner :=
  {| Summoner_ID := "summoner-id"; Summoner_AccountID := "";
     Summoner_PUUID := "test-puuid"; Summoner_Name := "";
     Summoner_ProfileIconID := 0; Summoner_SummonerLevel := 100 |}.

Definition summonerRequestPayload : string :=
  "{" +:+ q "region" +:+ ":" +:+ q "na" +:+ "," +:+ q "gameName" +:+ ":"
    +:+ q "TestPlayer" +:+ "," +:+ q "tagLine" +:+ ":" +:+ q "NA1" +:+ "}".

Definition noTagPayload : string :=
  "{" +:+ q "region" +:+ ":" +:+ q "na" +:+ "," +:+ q "gameName" +:+ ":"
    +:+ q "TestPlayer" +:+ "}".

(** A listing that names one match twice. *)
Definition twicePayload : string :=
  "[" +:+ q "NA1_123" +:+ "," +:+ q "NA1_123" +:+ "]".

Definition decodeIDs : Unmarshal (slice string) := λ r target,
  if bool_decide (content r = twicePayload)
  then Ok (Slice ["NA1_123"; "NA1_123"])
  else httptest.decodeIDs r target.

Definition routes : gmap string (result Response) :=
  list_to_map [
    ("https://americas.api.riotgames.com/lol/match/v5/matches/by-puuid/twice-puuid/ids?start=0&count=10",
     httptest.respond 200 twicePayload);
    ("https://americas.api.riotgames.com/riot/account/v1/accounts/by-riot-id/TestPlayer/NA1",
     httptest.respond 200 accountPayload);
    ("https://na1.api.riotgames.com/lol/summoner/v4/summoners/by-puuid/test-puuid",
     httptest.respond 200 summonerPayload);
    ("https://americas.api.riotgames.com/lol/match/v5/matches/by-puuid/test-puuid/ids?start=0&count=20",
     httptest.respond 429 "Rate limit exceeded");
    ("https://americas.api.riotgames.com/lol/match/v5/matches/by-puuid/empty-puuid/ids?start=0&count=10",
     httptest.respond 200 "[]");
    ("https://americas.api.riotgames.com/lol/match/v5/matches/by-puuid/test-puuid/ids?start=0&count=10",
     httptest.respond 200 httptest.idsPayload);
    ("https://americas.api.riotgames.com/lol/match/v5/matches/NA1_123",
     httptest.respond 200 httptest.matchPayload) ].

Definition serve (request : Request) (w : list Z)
  : result Response * list Z :=
  (default (httptest.respond 404 "Not found") (routes !! URL request), w).

(** [url.Parse] refuses a URL that is only a colon. *)
Definition missingScheme : error :=
  errorString ("parse " +:+ q ":" +:+ ": missing protocol scheme").

Definition runtime : Runtime :=
  {| World := list Z; DefaultDo := serve;
     url_Parse := λ url,
       if bool_decide (url = ":") then Some missingScheme else None |}.

Definition decodeAccount : Unmarshal services.accountInfo := λ r target,
  if bool_decide (content r = accountPayload) then Ok accountDecoded
  else if bool_decide (content r = "{}") then Ok target
  else httptest.invalid.

Definition decodeSummoner : Unmarshal Summoner := λ r target,
  if bool_decide (content r = summonerPayload) then Ok summonerDecoded
  else if bool_decide (content r = "{}") then Ok target
  else httptest.invalid.

Definition decodeSummonerRequest : Unmarshal api.summonerRequest :=
  λ r target,
  if bool_decide (content r = summonerRequestPayload) then
    Ok {| api.summonerRequest_Region := "na";
          api.summonerRequest_GameName := "TestPlayer";
          api.summonerRequest_TagLine := "NA1" |}
  else if bool_decide (content r = noTagPayload) then
    Ok {| api.summonerRequest_Region := "na";
          api.summonerRequest_GameName := "TestPlayer";
          api.summonerRequest_TagLine := api.summonerRequest_TagLine target |}
  else httptest.invalid.

Definition decodeRequest : Unmarshal api.matchRequest := λ r target,
  if bool_decide (content r = httptest.requestPayload) then
    Ok {| api.Region := "na"; api.GameName := api.GameName target;
          api.TagLine := api.TagLine target; api.PUUID := "test-puuid";
          api.Count := api.Count target |}
  else if bool_decide (content r = summonerRequestPayload) then
    Ok {| api.Region := "na"; api.GameName := "TestPlayer";
          api.TagLine := "NA1"; api.PUUID := api.PUUID target;
          api.Count := api.Count target |}
  else if bool_decide (content r = noTagPayload) then
    Ok {| api.Region := "na"; api.GameName := "TestPlayer";
          api.TagLine := api.TagLine target; api.PUUID := api.PUUID target;
          api.Count := api.Count target |}
  else if bool_decide (content r = "{}") then Ok target
  else httptest.invalid.

(** The service of production: no override, the default client. *)
Definition service : services.RiotService (RT := runtime) :=
  services.NewRiotService "test-api-key".

Definition start : Net (RT := runtime) := @Build_Net runtime [] [].

(** The state after the requests for these URLs, from [start]. *)
Definition requested (urls : list string) : Net (RT := runtime) :=
  @Build_Net runtime []
    ((λ url, Header_Add {| Method := "GET"; URL := url; Header := [] |}
               "X-Riot-Token" "test-api-key") <$> urls).

Definition post (body : string) : api.http_Request :=
  {| api.request_Body := {| content := body; readErr := None |};
     api.request_Vars := ∅; api.request_Query := ∅ |}.

(** A mock of the service whose summoner look-up fails. *)
Definition failing : api.RiotServiceInterface (RT := runtime) :=
  {| api.GetSummonerByRiotID := λ _ _ _, mret (Err (errorString "API error"));
     api.GetSummonerByPUUID := λ _ _, mret (Err (errorString "API error"));
     api.GetMatchHistory := λ _ _ _, mret (Err (errorString "API error"));
     api.GetMatchDetails := λ _ _, mret (Err (errorString "API error")) |}.

End httptest2.

(** * Properties *)

(** ** The region router *)

Section Router.
Import services.

Lemma regionalRouting_unknown (region : string) :
  region ∉ regions → regionalRouting !! region = None.
Proof.
  intros Hnot. unfold regionalRouting.
  apply not_elem_of_list_to_map_1. exact Hnot.
Qed.

Lemma continentalRouting_unknown (region : string) :
  region ∉ regions → continentalRouting !! region = None.
Proof.
  intros Hnot. unfold continentalRouting.
  apply not_elem_of_list_to_map_1.
  intros Hin. apply Hnot. revert Hin. unfold regions. simpl.
  rewrite !elem_of_cons, !elem_of_nil. tauto.
Qed.

(** C2. For each of the eleven region codes of the tables
    [getRegionalURL] returns the platform host of the region and
    [getMatchRegionalURL] the host of its continent (na, br, lan, las:
    americas; euw, eune, tr, ru: europe; kr, jp: asia; oce: sea); for every
    other string, the empty string included, they return the hosts of
    [na]: [na1.api.riotgames.com] and [americas.api.riotgames.com]. Both
    are total functions from strings to strings: they neither fail nor
    touch any state. *)
Theorem routing_hosts (region : string) :
  (getRegionalURL "na" = "na1.api.riotgames.com"
   ∧ getRegionalURL "euw" = "euw1.api.riotgames.com"
   ∧ getRegionalURL "eune" = "eun1.api.riotgames.com"
   ∧ getRegionalURL "kr" = "kr.api.riotgames.com"
   ∧ getRegionalURL "br" = "br1.api.riotgames.com"
   ∧ getRegionalURL "jp" = "jp1.api.riotgames.com"
   ∧ getRegionalURL "ru" = "ru.api.riotgames.com"
   ∧ getRegionalURL "oce" = "oc1.api.riotgames.com"
   ∧ getRegionalURL "tr" = "tr1.api.riotgames.com"
   ∧ getRegionalURL "lan" = "la1.api.riotgames.com"
   ∧ getRegionalURL "las" = "la2.api.riotgames.com")
  ∧ (Forall (λ r, getMatchRegionalURL r = "americas.api.riotgames.com")
       ["na"; "br"; "lan"; "las"]
     ∧ Forall (λ r, getMatchRegionalURL r = "europe.api.riotgames.com")
         ["euw"; "eune"; "tr"; "ru"]
     ∧ Forall (λ r, getMatchRegionalURL r = "asia.api.riotgames.com")
         ["kr"; "jp"]
     ∧ Forall (λ r, getMatchRegionalURL r = "sea.api.riotgames.com") ["oce"])
  ∧ (dom regionalRouting = list_to_set regions
     ∧ dom continentalRouting = list_to_set regions
     ∧ size regionalRouting = 11%nat
     ∧ size continentalRouting = 11%nat)
  ∧ (region ∉ regions →
     getRegionalURL region = "na1.api.riotgames.com"
     ∧ getMatchRegionalURL region = "americas.api.riotgames.com").
Proof.
  split; [|split; [|split]].
  - repeat split; vm_compute; reflexivity.
  - repeat split; repeat constructor; vm_compute; reflexivity.
  - split; [|split; [|split]].
    + unfold regionalRouting. rewrite dom_list_to_map_L. reflexivity.
    + unfold continentalRouting. rewrite dom_list_to_map_L.
      unfold regions. simpl. set_solver.
    + vm_compute. reflexivity.
    + vm_compute. reflexivity.
  - intros Hnot. unfold getRegionalURL, getMatchRegionalURL.
    rewrite regionalRouting_unknown, continentalRouting_unknown by done.
    split; vm_compute; reflexivity.
Qed.

(** The fallback at the empty string and at an upper-case code. *)
Lemma routing_hosts_witness :
  (getRegionalURL "" = "na1.api.riotgames.com"
   ∧ getMatchRegionalURL "" = "americas.api.riotgames.com")
  ∧ (getRegionalURL "EUW" = "na1.api.riotgames.com"
     ∧ getMatchRegionalURL "EUW" = "americas.api.riotgames.com").
Proof.
  split.
  - apply (routing_hosts ""). apply (bool_decide_unpack _). reflexivity.
  - apply (routing_hosts "EUW"). apply (bool_decide_unpack _). reflexivity.
Defined.

End Router.

(** ** Request execution *)

Section Execution.
Context {RT : Runtime} {T : Type} {decode : Unmarshal T}.
Implicit Types (riotService : services.RiotService) (url : string)
  (target : T) (s : Net).

(** The exits of [makeRequest], in the order of its text. *)
Lemma makeRequest_run riotService url target s :
  services.makeRequest riotService url target s =
  match url_Parse url with
  | Some err => Some (Err (fmt_Errorf_w "failed to create request: " err), s)
  | None =>
    let request := requestFor riotService url in
    let '(r, w) :=
      Do (services.httpClient riotService) request (world s) in
    match r with
    | Err err => Some (Err (TransportError err), after s request w)
    | Ok response =>
      if bool_decide (StatusCode response = http_StatusOK) then
        match json_Decode (Body response) target with
        | Ok v => Some (Ok v, after s request w)
        | Err err => Some (Err (DecodeError err), after s request w)
        end
      else
        Some (Err (UpstreamError (StatusCode response)
                     (content (Body response))), after s request w)
    end
  end.
Proof.
  unfold services.makeRequest, http_NewRequest.
  destruct (url_Parse url) as [err|]; [reflexivity|].
  unfold mbind, M_bind, Client_Do, requestFor. cbn [Method URL Header].
  destruct (Do _ _ _) as [[response|err] w]; [|reflexivity].
  cbn. repeat case_bool_decide; try contradiction; try reflexivity.
  destruct (json_Decode _ _); reflexivity.
Qed.

(** [makeRequest] always returns, and it hands at most one request to the
    client: the one for its URL. *)
Lemma makeRequest_returns riotService url target s :
  ∃ r s', services.makeRequest riotService url target s = Some (r, s')
    ∧ (sent s' = sent s ∨ sent s' = sent s ++ [requestFor riotService url]).
Proof.
  rewrite makeRequest_run.
  destruct (url_Parse url); [eauto|].
  cbv zeta. destruct (Do _ _ _) as [[response|err] w]; [|eauto].
  case_bool_decide; [|eauto].
  destruct (json_Decode _ _); eauto.
Qed.

(** C10. [makeRequest] returns an error for every answer whose status is
    not exactly 200, the other codes of the 2xx class such as 201 and 204
    included; a call that succeeds has received an answer of status 200,
    whose body decoded to the value returned. *)
Theorem makeRequest_only_200_succeeds riotService url target s :
  (∀ response w,
     url_Parse url = None →
     Do (services.httpClient riotService) (requestFor riotService url)
       (world s) = (Ok response, w) →
     StatusCode response ≠ 200 →
     services.makeRequest riotService url target s
     = Some (Err (UpstreamError (StatusCode response)
                    (content (Body response))),
             after s (requestFor riotService url) w))
  ∧ (∀ v s',
       services.makeRequest riotService url target s = Some (Ok v, s') →
       ∃ response w,
         Do (services.httpClient riotService)
           (requestFor riotService url) (world s) = (Ok response, w)
         ∧ StatusCode response = 200
         ∧ json_Decode (Body response) target = Ok v
         ∧ s' = after s (requestFor riotService url) w).
Proof.
  split.
  - intros response w Hurl Hdo Hcode.
    rewrite makeRequest_run, Hurl. cbv zeta. rewrite Hdo.
    rewrite bool_decide_eq_false_2 by exact Hcode. reflexivity.
  - intros v s'. rewrite makeRequest_run.
    destruct (url_Parse url); [discriminate|].
    cbv zeta. destruct (Do _ _ _) as [[response|err] w];
      [|discriminate].
    case_bool_decide as Hcode; [|discriminate].
    destruct (json_Decode _ _) as [v'|] eqn:Hdec; [|discriminate].
    intros [= <- <-]. exists response, w. auto.
Qed.

End Execution.

(** The answers 201 and 200 of the stub server. *)
Lemma makeRequest_only_200_succeeds_witness :
  services.makeRequest (RT := httptest.runtime)
    (decode := httptest.decodeObject) httptest.service
    (httptest.baseURL +:+ "/created") services.accountInfo_zero
    httptest.start
  = Some (Err (errorString "API request failed with status 201: {}"),
          after httptest.start
            (requestFor httptest.service (httptest.baseURL +:+ "/created"))
            [])
  ∧ ∃ response w,
      httptest.serve
        (requestFor httptest.service
           (httptest.baseURL +:+ "/lol/match/v5/matches/NA1_125")) []
      = (Ok response, w)
      ∧ StatusCode response = 200.
Proof.
  split.
  - apply (proj1 (makeRequest_only_200_succeeds (RT := httptest.runtime)
                    (decode := httptest.decodeObject) httptest.service
                    (httptest.baseURL +:+ "/created")
                    services.accountInfo_zero httptest.start)
             {| StatusCode := 201;
                Body := {| content := "{}"; readErr := None |} |} []).
    + reflexivity.
    + reflexivity.
    + vm_compute. discriminate.
  - destruct (proj2 (makeRequest_only_200_succeeds (RT := httptest.runtime)
                       (decode := httptest.decodeObject) httptest.service
                       (httptest.baseURL +:+ "/lol/match/v5/matches/NA1_125")
                       services.accountInfo_zero httptest.start)
                services.accountInfo_zero
                (after httptest.start
                   (requestFor httptest.service
                      (httptest.baseURL +:+ "/lol/match/v5/matches/NA1_125"))
                   []))
      as (response & w & Hdo & Hcode & _).
    + reflexivity.
    + exists response, w. split; [exact Hdo|exact Hcode].
Defined.

(** ** The kinds of error *)









Section Kinds.
Context {RT : Runtime} {T : Type} {decode : Unmarshal T}.


End Kinds.


(** ** Match normalization *)

(** [time.UnixMilli] denotes the instant that many milliseconds after the
    epoch, with the nanoseconds in the range of a second. *)
Lemma time_UnixMilli_instant (msec : Z) :
  Time_UnixMilli (time_UnixMilli msec) = msec
  ∧ Time_UnixNano (time_UnixMilli msec) = msec * 1000000
  ∧ 0 ≤ nsec (time_UnixMilli msec) < 1000000000.
Proof.
  unfold time_UnixMilli, time_Unix, Time_UnixMilli, Time_UnixNano.
  pose proof (Z.quot_rem' msec 1000) as Hqr.
  pose proof (Z.rem_bound_abs msec 1000 ltac:(lia)) as Hr.
  set (q := msec `quot` 1000) in *. set (r := msec `rem` 1000) in *.
  assert ((r * 1000000) `quot` 1000000000 = 0) as Hn
    by (apply Z.quot_small_iff; lia).
  assert ((r * 1000000 + 1000000000) `quot` 1000000 = r + 1000) as Hup.
  { replace (r * 1000000 + 1000000000) with ((r + 1000) * 1000000) by lia.
    apply Z.quot_mul. lia. }
  assert ((r * 1000000) `quot` 1000000 = r) as Hsame
    by (apply Z.quot_mul; lia).
  case_bool_decide as Hout; cbv zeta.
  - rewrite Hn. case_bool_decide; cbn [unixSec nsec].
    + rewrite Z.mul_0_l, Z.sub_0_r, Hup. lia.
    + lia.
  - cbn [unixSec nsec]. rewrite Hsame. lia.
Qed.

Section Details.
Context {RT : Runtime}.
Context {decodeAccount : Unmarshal services.accountInfo}
        {decodeSummoner : Unmarshal models.Summoner}
        {decodeIDs : Unmarshal (slice string)}
        {decodeMatch : Unmarshal services.rawMatch}.
Import models services.

(** The loop over the participants stores within the bounds of the slice
    it fills, and leaves the copies in the order of the payload. *)
Lemma rangeParticipants_run (participants : list rawParticipant) :
  ∀ (i : nat) (match_ : Match) (l : list Participant) (s : Net),
    Participants match_ = Slice l →
    (i + length participants ≤ length l)%nat →
    rangeParticipants i participants match_ s
    = Some (withParticipants match_
              (Slice (take i l ++ (copyParticipant <$> participants)
                        ++ drop (i + length participants) l)), s).
Proof.
  induction participants as [|p rest IH]; intros i match_ l s Hl Hlen.
  - cbn [rangeParticipants fmap list_fmap length mret M_ret].
    rewrite Nat.add_0_r, app_nil_l, take_drop, <- Hl.
    destruct match_; reflexivity.
  - cbn [rangeParticipants length] in *.
    unfold mbind, M_bind, store, len. rewrite Hl. cbn [elems].
    rewrite decide_True by lia. cbn [mret M_ret].
    rewrite (IH _ _ (<[i:=copyParticipant p]> l))
      by (try reflexivity; rewrite length_insert; lia).
    do 3 f_equal.
    rewrite (take_S_r _ _ (copyParticipant p))
      by (apply list_lookup_insert_eq; lia).
    rewrite take_insert_ge by lia.
    rewrite drop_insert_lt by lia.
    rewrite fmap_cons, <- app_assoc. cbn [app].
    replace (S i + length rest)%nat with (i + S (length rest))%nat by lia.
    reflexivity.
Qed.

(** [GetMatchDetails] returns the normalized payload of a successful
    request, and the error of a failed one under a prefix. *)
Lemma GetMatchDetails_run (riotService : RiotService)
    (region matchID : string) (s : Net) :
  GetMatchDetails riotService region matchID s =
  match makeRequest riotService (matchURL riotService region matchID)
          rawMatch_zero s with
  | Some (Ok rawMatch, s') => Some (Ok (normalize rawMatch), s')
  | Some (Err err, s') =>
      Some (Err (fmt_Errorf_w "failed to get match details: " err), s')
  | None => None
  end.
Proof.
  unfold GetMatchDetails, matchURL. unfold mbind at 1. unfold M_bind at 1.
  destruct (makeRequest _ _ _ _) as [[[rawMatch|err] s']|]; try reflexivity.
  unfold mbind, M_bind, make.
  erewrite rangeParticipants_run;
    [|reflexivity|rewrite length_replicate; unfold len; lia].
  cbn [mret M_ret]. unfold normalize, withParticipants.
  cbn [MatchID GameCreation GameDuration GameMode GameType].
  rewrite take_0, app_nil_l. unfold len.
  rewrite drop_ge, app_nil_r by (rewrite length_replicate; lia).
  reflexivity.
Qed.

(** C7. When the request of [GetMatchDetails] succeeds and decodes to a raw
    payload, the call returns a match (nothing is validated) such that:
    [GameCreation] is the instant [gameCreation] milliseconds after the
    epoch, and for 1700000000000 the instant 1700000000 s and 0 ns; the
    other fields of the match are those of the payload; the participants
    are as many as in the payload, in its order, and each field of each
    participant is the field of the same name of the raw participant; with
    no participant in the payload, absent or empty, the sequence is the
    empty slice and not nil; a payload that leaves every field of the
    target at its zero value gives empty strings, zeros and [false], and
    the epoch as instant. *)
Theorem GetMatchDetails_normalization (riotService : RiotService)
    (region matchID : string) (s s' : Net) (rawMatch : rawMatch) :
  makeRequest riotService (matchURL riotService region matchID)
    rawMatch_zero s = Some (Ok rawMatch, s') →
  ∃ m : Match,
    GetMatchDetails riotService region matchID s = Some (Ok m, s')
    ∧ (Time_UnixMilli (GameCreation m) = raw_GameCreation (Info rawMatch)
       ∧ Time_UnixNano (GameCreation m)
         = raw_GameCreation (Info rawMatch) * 1000000
       ∧ 0 ≤ nsec (GameCreation m) < 1000000000
       ∧ (raw_GameCreation (Info rawMatch) = 1700000000000 →
          GameCreation m = unixTime 1700000000 0))
    ∧ (MatchID m = raw_MatchID (Metadata rawMatch)
       ∧ GameDuration m = raw_GameDuration (Info rawMatch)
       ∧ GameMode m = raw_GameMode (Info rawMatch)
       ∧ GameType m = raw_GameType (Info rawMatch))
    ∧ (∃ ps : list Participant,
         Participants m = Slice ps
         ∧ length ps = len (raw_Participants (Info rawMatch))
         ∧ ∀ (i : nat) (p : rawParticipant),
             elems (raw_Participants (Info rawMatch)) !! i = Some p →
             ∃ q : Participant,
               ps !! i = Some q
               ∧ PUUID q = raw_PUUID p
               ∧ SummonerName q = raw_SummonerName p
               ∧ ChampionID q = raw_ChampionID p
               ∧ ChampionName q = raw_ChampionName p
               ∧ Kills q = raw_Kills p
               ∧ Deaths q = raw_Deaths p
               ∧ Assists q = raw_Assists p
               ∧ GoldEarned q = raw_GoldEarned p
               ∧ TotalDamageDealtToChampions q
                 = raw_TotalDamageDealtToChampions p
               ∧ TotalDamageTaken q = raw_TotalDamageTaken p
               ∧ VisionScore q = raw_VisionScore p
               ∧ TotalMinionsKilled q = raw_TotalMinionsKilled p
               ∧ Win q = raw_Win p
               ∧ TeamPosition q = raw_TeamPosition p)
    ∧ (len (raw_Participants (Info rawMatch)) = 0%nat →
       Participants m = Slice [])
    ∧ (rawMatch = rawMatch_zero →
       m = {| MatchID := ""; GameCreation := unixTime 0 0;
              GameDuration := 0; GameMode := ""; GameType := "";
              Participants := Slice [] |})
    ∧ copyParticipant rawParticipant_zero = Participant_zero.
Proof.
  intros Hreq. exists (normalize rawMatch).
  split; [rewrite GetMatchDetails_run, Hreq; reflexivity|].
  destruct (time_UnixMilli_instant (raw_GameCreation (Info rawMatch)))
    as (Hms & Hnano & Hns).
  repeat apply conj; try reflexivity.
  - exact Hms.
  - exact Hnano.
  - apply Hns.
  - apply Hns.
  - cbn [normalize GameCreation]. intros ->. reflexivity.
  - exists (copyParticipant <$> elems (raw_Participants (Info rawMatch))).
    repeat apply conj; [reflexivity|apply length_fmap|].
    intros i p Hp. exists (copyParticipant p).
    rewrite list_lookup_fmap, Hp. repeat split.
  - unfold len. intros Hlen%length_zero_iff_nil.
    cbn [normalize Participants]. rewrite Hlen. reflexivity.
  - intros ->. reflexivity.
Qed.

End Details.

(** The stub server returns the payload of the tests for match NA1_123. *)
Lemma GetMatchDetails_normalization_witness :
  ∃ m : models.Match,
    services.GetMatchDetails (RT := httptest.runtime)
      (decodeMatch := httptest.decodeMatch) httptest.service "na" "NA1_123"
      httptest.start
    = Some (Ok m,
            after httptest.start
              (requestFor httptest.service
                 (httptest.baseURL +:+ "/lol/match/v5/matches/NA1_123")) [])
    ∧ models.GameCreation m = unixTime 1700000000 0
    ∧ models.Participants m = Slice [].
Proof.
  destruct (GetMatchDetails_normalization (RT := httptest.runtime)
              (decodeMatch := httptest.decodeMatch) httptest.service
              "na" "NA1_123" httptest.start
              (after httptest.start
                 (requestFor httptest.service
                    (httptest.baseURL +:+ "/lol/match/v5/matches/NA1_123"))
                 [])
              httptest.matchDecoded)
    as (m & Hrun & (_ & _ & _ & Hinstant) & _ & _ & Hempty & _).
  - reflexivity.
  - exists m. split; [exact Hrun|]. split.
    + apply Hinstant. reflexivity.
    + apply Hempty. reflexivity.
Defined.

(** ** Identity resolution *)

Section Identity.
Context {RT : Runtime}.
Context {decodeAccount : Unmarshal services.accountInfo}
        {decodeSummoner : Unmarshal models.Summoner}.
Import models services.

Lemma GetSummonerByPUUID_run (riotService : RiotService)
    (region puuid : string) (s : Net) :
  GetSummonerByPUUID riotService region puuid s =
  match makeRequest riotService (summonerURL riotService region puuid)
          Summoner_zero s with
  | Some (Ok summoner, s') => Some (Ok summoner, s')
  | Some (Err err, s') =>
      Some (Err (fmt_Errorf_w "failed to get summoner: " err), s')
  | None => None
  end.
Proof.
  unfold GetSummonerByPUUID, summonerURL, mbind, M_bind.
  destruct (makeRequest _ _ _ _) as [[[summoner|err] s']|]; reflexivity.
Qed.

Lemma GetSummonerByRiotID_run (riotService : RiotService)
    (region gameName tagLine : string) (s : Net) :
  GetSummonerByRiotID riotService region gameName tagLine s =
  match makeRequest riotService
          (accountEndpoint riotService region gameName tagLine)
          accountInfo_zero s with
  | Some (Ok accountInfo, s') =>
      GetSummonerByPUUID riotService region (accountInfo_PUUID accountInfo) s'
  | Some (Err err, s') =>
      Some (Err (fmt_Errorf_w "failed to get account info: " err), s')
  | None => None
  end.
Proof.
  unfold GetSummonerByRiotID, accountEndpoint, mbind, M_bind.
  destruct (makeRequest _ _ _ _) as [[[accountInfo|err] s']|]; reflexivity.
Qed.

(** C5, as the code has it. A failure of the account look-up ends
    [GetSummonerByRiotID] with no summoner and with an error that wraps
    the error of the look-up: the message is prefixed with
    [failed to get account info: ] and the error of the look-up is the
    cause kept under it; no request besides the one of the account
    look-up was handed to the client, so the summoner look-up was not
    attempted. A failure of [GetSummonerByPUUID] ends the operation with
    no summoner and with the error of [GetSummonerByPUUID], unchanged;
    that error wraps the error of its request under the prefix
    [failed to get summoner: ]. *)
Theorem GetSummonerByRiotID_step_failure (riotService : RiotService)
    (region gameName tagLine : string) (s : Net) :
  (∀ err s1,
     makeRequest riotService
       (accountEndpoint riotService region gameName tagLine)
       accountInfo_zero s = Some (Err err, s1) →
     GetSummonerByRiotID riotService region gameName tagLine s
     = Some (Err (wrapError ("failed to get account info: " +:+ Error err)
                    err), s1)
     ∧ (sent s1 = sent s
        ∨ sent s1
          = sent s
              ++ [requestFor riotService
                    (accountEndpoint riotService region gameName tagLine)]))
  ∧ (∀ accountInfo s1 err s2,
       makeRequest riotService
         (accountEndpoint riotService region gameName tagLine)
         accountInfo_zero s = Some (Ok accountInfo, s1) →
       GetSummonerByPUUID riotService region (accountInfo_PUUID accountInfo)
         s1 = Some (Err err, s2) →
       GetSummonerByRiotID riotService region gameName tagLine s
       = Some (Err err, s2))
  ∧ (∀ puuid s1 err s2,
       makeRequest riotService (summonerURL riotService region puuid)
         Summoner_zero s1 = Some (Err err, s2) →
       GetSummonerByPUUID riotService region puuid s1
       = Some (Err (wrapError ("failed to get summoner: " +:+ Error err)
                      err), s2)).
Proof.
  repeat apply conj.
  - intros err s1 Hreq. split.
    + rewrite GetSummonerByRiotID_run, Hreq. reflexivity.
    + destruct (makeRequest_returns riotService
                  (accountEndpoint riotService region gameName tagLine)
                  accountInfo_zero s) as (r & s' & Hrun & Hsent).
      rewrite Hreq in Hrun. injection Hrun as _ <-. exact Hsent.
  - intros accountInfo s1 err s2 Hreq Hsum.
    rewrite GetSummonerByRiotID_run, Hreq. exact Hsum.
  - intros puuid s1 err s2 Hreq.
    rewrite GetSummonerByPUUID_run, Hreq. reflexivity.
Qed.

End Identity.

(** On the stub server: the account look-up of an unknown player is
    answered 404; the account of TestPlayer is found, with no PUUID in the
    payload, and the summoner look-up that follows is answered 404. *)
Lemma GetSummonerByRiotID_step_failure_witness :
  let notFound := errorString "API request failed with status 404: Not found" in
  let run := services.GetSummonerByRiotID (RT := httptest.runtime)
    (decodeAccount := httptest.decodeObject)
    (decodeSummoner := httptest.decodeObject) httptest.service in
  let account name :=
    requestFor httptest.service
      (httptest.baseURL +:+ "/riot/account/v1/accounts/by-riot-id/" +:+ name
         +:+ "/NA1") in
  run "na" "NonExistent" "NA1" httptest.start
  = Some (Err (wrapError
                 "failed to get account info: API request failed with status 404: Not found"
                 notFound),
          after httptest.start (account "NonExistent") [])
  ∧ run "na" "TestPlayer" "NA1" httptest.start
    = Some (Err (wrapError
                   "failed to get summoner: API request failed with status 404: Not found"
                   notFound),
            after (after httptest.start (account "TestPlayer") [])
              (requestFor httptest.service
                 (httptest.baseURL +:+ "/lol/summoner/v4/summoners/by-puuid/"))
              []).
Proof.
  intros notFound run account.
  pose proof (GetSummonerByRiotID_step_failure (RT := httptest.runtime)
                (decodeAccount := httptest.decodeObject)
                (decodeSummoner := httptest.decodeObject) httptest.service)
    as Hsteps.
  split.
  - apply (proj1 (Hsteps "na" "NonExistent" "NA1" httptest.start) notFound).
    reflexivity.
  - destruct (Hsteps "na" "TestPlayer" "NA1" httptest.start)
      as (_ & Hsecond & Hthird).
    apply (Hsecond services.accountInfo_zero
             (after httptest.start (account "TestPlayer") [])).
    + reflexivity.
    + apply (Hthird "" (after httptest.start (account "TestPlayer") [])
               notFound).
      reflexivity.
Defined.

(** The error of the failed account look-up is not what
    [GetSummonerByRiotID] returns: it returns an error with another
    message, which wraps it. *)
Lemma GetSummonerByRiotID_error_changed :
  let err := errorString "API request failed with status 404: Not found" in
  let s1 :=
    after httptest.start
      (requestFor httptest.service
         (httptest.baseURL
            +:+ "/riot/account/v1/accounts/by-riot-id/NonExistent/NA1")) [] in
  services.makeRequest (RT := httptest.runtime)
    (decode := httptest.decodeObject) httptest.service
    (accountEndpoint httptest.service "na" "NonExistent" "NA1")
    services.accountInfo_zero httptest.start = Some (Err err, s1)
  ∧ services.GetSummonerByRiotID (RT := httptest.runtime)
      (decodeAccount := httptest.decodeObject)
      (decodeSummoner := httptest.decodeObject) httptest.service
      "na" "NonExistent" "NA1" httptest.start ≠ Some (Err err, s1).
Proof.
  intros err s1. split.
  - reflexivity.
  - vm_compute. discriminate.
Qed.

(** ** Match history *)

Lemma successes_Ok (ms : list models.Match) : successes (Ok <$> ms) = ms.
Proof.
  unfold successes. induction ms as [|m ms IH]; [reflexivity|].
  cbn. rewrite IH. reflexivity.
Qed.

Lemma elem_of_successes (outs : list (result models.Match)) (m : models.Match) :
  m ∈ successes outs ↔ Ok m ∈ outs.
Proof.
  unfold successes. rewrite list_elem_of_omap. split.
  - intros ([m'|e] & Hin & Heq); simplify_eq. exact Hin.
  - intros Hin. exists (Ok m). done.
Qed.

(** The successes are the outcomes with a nil error, each as often and in
    the order it occurs. *)
Lemma successes_filter (outs : list (result models.Match)) :
  Ok <$> successes outs = filter (λ r, Is_true (is_Ok r)) outs.
Proof.
  induction outs as [|[m|err] outs IH]; [reflexivity|..].
  - rewrite filter_cons_True by exact I. cbn. fold (successes outs).
    rewrite IH. reflexivity.
  - rewrite filter_cons_False by (intros []). cbn. fold (successes outs).
    exact IH.
Qed.

(** One failure among the outcomes: the successes are the other outcomes,
    in their order. *)
Lemma successes_one_failure (outs : list (result models.Match)) (i : nat)
    (err : error) :
  outs !! i = Some (Err err) →
  (∀ (j : nat) (r : result models.Match),
     j ≠ i → outs !! j = Some r → ∃ m, r = Ok m) →
  Ok <$> successes outs = delete i outs
  ∧ length (successes outs) = (length outs - 1)%nat.
Proof.
  intros Hi Hothers.
  assert (Ok <$> successes outs = delete i outs) as Heq.
  { revert i Hi Hothers. induction outs as [|r outs IH]; intros i Hi Hothers;
      [discriminate|].
    destruct i as [|i].
    - injection Hi as ->. cbn.
      assert (∃ ms, outs = Ok <$> ms) as [ms ->].
      { clear IH. induction outs as [|r outs IH].
        - exists []. reflexivity.
        - destruct (Hothers 1%nat r) as [m ->]; [lia|reflexivity|].
          destruct IH as [ms ->].
          + intros [|j] r' Hj Hr'; [done|].
            apply (Hothers (S (S j)) r'); [lia|exact Hr'].
          + exists (m :: ms). reflexivity. }
      fold (successes (Ok <$> ms)). rewrite successes_Ok. reflexivity.
    - destruct (Hothers 0%nat r) as [m ->]; [lia|reflexivity|].
      cbn. fold (successes outs). f_equal.
      apply IH; [exact Hi|].
      intros j r' Hj Hr'. apply (Hothers (S j) r'); [lia|exact Hr']. }
  split; [exact Heq|].
  apply (f_equal length) in Heq.
  rewrite length_fmap, length_delete in Heq by (rewrite Hi; eauto).
  exact Heq.
Qed.

Section History.
Context {RT : Runtime}.
Context {decodeIDs : Unmarshal (slice string)}
        {decodeMatch : Unmarshal services.rawMatch}.
Import models services.
Implicit Types (riotService : RiotService) (region puuid matchID : string)
  (s : Net) (outs : list (result Match)).

(** A detail fetch always returns. *)
Lemma GetMatchDetails_returns riotService region matchID s :
  ∃ r s', GetMatchDetails riotService region matchID s = Some (r, s').
Proof.
  rewrite GetMatchDetails_run.
  destruct (makeRequest_returns riotService
              (matchURL riotService region matchID) rawMatch_zero s)
    as ([rawMatch|err] & s' & -> & _); eauto.
Qed.

(** The detail fetches of a listing all return, one outcome per ID. *)
Lemma fetchEach_returns riotService region (matchIDs : list string) :
  ∀ s, ∃ outs s', fetchEach riotService region matchIDs s = Some (outs, s').
Proof.
  induction matchIDs as [|matchID rest IH]; intros s.
  - exists [], s. reflexivity.
  - destruct (GetMatchDetails_returns riotService region matchID s)
      as (r & s1 & Hr).
    destruct (IH s1) as (outs & s2 & Houts).
    exists (r :: outs), s2.
    cbn [fetchEach]. unfold mbind, M_bind. rewrite Hr, Houts. reflexivity.
Qed.

(** The j-th outcome is the outcome of the fetch of the j-th ID. *)
Lemma fetchEach_outcomes riotService region (matchIDs : list string) :
  ∀ s outs s',
    fetchEach riotService region matchIDs s = Some (outs, s') →
    Forall2 (λ matchID r,
               ∃ sj sj',
                 GetMatchDetails riotService region matchID sj = Some (r, sj'))
      matchIDs outs.
Proof.
  induction matchIDs as [|matchID rest IH]; intros s outs s'.
  - intros [= <- _]. constructor.
  - cbn [fetchEach]. unfold mbind, M_bind.
    destruct (GetMatchDetails _ _ _ _) as [[r s1]|] eqn:Hr; [|discriminate].
    destruct (fetchEach _ _ _ _) as [[rs s2]|] eqn:Hrs; [|discriminate].
    intros [= <- _]. constructor; eauto.
Qed.

(** The loop of [GetMatchHistory] appends the successes of the detail
    fetches to the matches accumulated so far. *)
Lemma rangeMatchIDs_run riotService region (matchIDs : list string) :
  ∀ (matches : list Match) s outs s',
    fetchEach riotService region matchIDs s = Some (outs, s') →
    rangeMatchIDs riotService region matchIDs (Slice matches) s
    = Some (Slice (matches ++ successes outs), s').
Proof.
  induction matchIDs as [|matchID rest IH]; intros matches s outs s'.
  - intros [= <- <-]. cbn. rewrite app_nil_r. reflexivity.
  - cbn [fetchEach rangeMatchIDs]. unfold mbind, M_bind.
    destruct (GetMatchDetails _ _ _ _) as [[r s1]|]; [|discriminate].
    destruct (fetchEach _ _ _ _) as [[rs s2]|] eqn:Hrs; [|discriminate].
    intros [= <- <-]. destruct r as [match_|err].
    + unfold append. cbn [elems]. rewrite (IH _ _ _ _ Hrs).
      cbn [successes omap]. rewrite <- app_assoc. reflexivity.
    + rewrite (IH _ _ _ _ Hrs). reflexivity.
Qed.

Lemma GetMatchHistory_run riotService region puuid (count : Z) s :
  GetMatchHistory riotService region puuid count s =
  match makeRequest riotService (matchListURL riotService region puuid count)
          (nil_slice : slice string) s with
  | Some (Ok matchIDs, s1) =>
      match fetchEach riotService region (elems matchIDs) s1 with
      | Some (outs, s2) => Some (Ok (Slice (successes outs)), s2)
      | None => None
      end
  | Some (Err err, s1) =>
      Some (Err (fmt_Errorf_w "failed to get match list: " err), s1)
  | None => None
  end.
Proof.
  unfold GetMatchHistory, matchListURL. unfold mbind at 1. unfold M_bind at 1.
  destruct (makeRequest _ _ _ _) as [[[matchIDs|err] s1]|]; try reflexivity.
  destruct (fetchEach_returns riotService region (elems matchIDs) s1)
    as (outs & s2 & Houts).
  unfold mbind, M_bind.
  unfold make. cbn [replicate].
  rewrite Houts, (rangeMatchIDs_run _ _ _ _ _ _ _ Houts). reflexivity.
Qed.

(** The successes of the detail fetches are a subsequence of the outcomes. *)
Lemma successes_sublist outs : (Ok <$> successes outs) `sublist_of` outs.
Proof.
  induction outs as [|[m|err] outs IH]; cbn.
  - constructor.
  - fold (successes outs). constructor. exact IH.
  - fold (successes outs). constructor. exact IH.
Qed.

(** C1. When the listing call succeeds with K match IDs and exactly one of
    the K detail fetches, the i-th, fails, [GetMatchHistory] returns no
    error and K-1 matches: the outcomes of the other fetches, in the order
    of the listing, each the match fetched for the ID at its place among
    the other IDs; nothing stands for the failed fetch. *)
Theorem GetMatchHistory_one_failure riotService region puuid (count : Z)
    s s1 s2 (matchIDs : slice string) outs (i : nat) (err : error) :
  makeRequest riotService (matchListURL riotService region puuid count)
    (nil_slice : slice string) s = Some (Ok matchIDs, s1) →
  fetchEach riotService region (elems matchIDs) s1 = Some (outs, s2) →
  outs !! i = Some (Err err) →
  (∀ (j : nat) (r : result Match),
     j ≠ i → outs !! j = Some r → ∃ m, r = Ok m) →
  ∃ ms : list Match,
    GetMatchHistory riotService region puuid count s
    = Some (Ok (Slice ms), s2)
    ∧ length ms = (len matchIDs - 1)%nat
    ∧ Ok <$> ms = delete i outs
    ∧ Forall2 (λ matchID m,
                 ∃ sj sj',
                   GetMatchDetails riotService region matchID sj
                   = Some (Ok m, sj'))
        (delete i (elems matchIDs)) ms.
Proof.
  intros Hlist Hfetch Hi Hothers. exists (successes outs).
  destruct (successes_one_failure outs i err Hi Hothers) as [Heq Hlen].
  pose proof (fetchEach_outcomes _ _ _ _ _ _ Hfetch) as Hout.
  repeat apply conj.
  - rewrite GetMatchHistory_run, Hlist, Hfetch. reflexivity.
  - rewrite Hlen. unfold len. rewrite (Forall2_length _ _ _ Hout).
    reflexivity.
  - exact Heq.
  - apply (Forall2_delete _ _ _ i) in Hout. rewrite <- Heq in Hout.
    apply Forall2_fmap_r in Hout. exact Hout.
Qed.

(** C3. When the listing call succeeds with K match IDs and the K detail
    fetches succeed, [GetMatchHistory] returns K matches: the j-th is the
    match fetched for the j-th ID of the listing. *)
Theorem GetMatchHistory_all_succeed riotService region puuid (count : Z)
    s s1 s2 (matchIDs : slice string) (ms : list Match) :
  makeRequest riotService (matchListURL riotService region puuid count)
    (nil_slice : slice string) s = Some (Ok matchIDs, s1) →
  fetchEach riotService region (elems matchIDs) s1 = Some (Ok <$> ms, s2) →
  GetMatchHistory riotService region puuid count s = Some (Ok (Slice ms), s2)
  ∧ length ms = len matchIDs
  ∧ Forall2 (λ matchID m,
               ∃ sj sj',
                 GetMatchDetails riotService region matchID sj
                 = Some (Ok m, sj'))
      (elems matchIDs) ms.
Proof.
  intros Hlist Hfetch.
  pose proof (fetchEach_outcomes _ _ _ _ _ _ Hfetch) as Hout.
  repeat apply conj.
  - rewrite GetMatchHistory_run, Hlist, Hfetch, successes_Ok. reflexivity.
  - unfold len. rewrite (Forall2_length _ _ _ Hout), length_fmap.
    reflexivity.
  - apply Forall2_fmap_r in Hout. exact Hout.
Qed.

(** C4. When the listing call fails, [GetMatchHistory] returns no match
    and an error, the one of the listing call under the prefix
    [failed to get match list: ]; the only request that may have been
    handed to the client is the one of the listing: no detail fetch
    was attempted. *)
Theorem GetMatchHistory_listing_fails riotService region puuid (count : Z)
    s s1 (err : error) :
  makeRequest riotService (matchListURL riotService region puuid count)
    (nil_slice : slice string) s = Some (Err err, s1) →
  GetMatchHistory riotService region puuid count s
  = Some (Err (wrapError ("failed to get match list: " +:+ Error err) err),
          s1)
  ∧ (sent s1 = sent s
     ∨ sent s1
       = sent s
           ++ [requestFor riotService
                 (matchListURL riotService region puuid count)]).
Proof.
  intros Hlist. split.
  - rewrite GetMatchHistory_run, Hlist. reflexivity.
  - destruct (makeRequest_returns riotService
                (matchListURL riotService region puuid count)
                (nil_slice : slice string) s) as (r & s' & Hrun & Hsent).
    rewrite Hlist in Hrun. injection Hrun as _ <-. exact Hsent.
Qed.

(** C8, as the code has it. A match that [GetMatchDetails] returns is the
    normalization of the payload its request decoded: its [MatchID] is the
    [matchId] of the payload, which is not checked to be non-empty. The
    sequence that [GetMatchHistory] returns is the sequence of the
    successful outcomes of the detail fetches of its listing: the
    outcomes with a nil error, each as often as it occurs and in the order
    of the listing (a match fetched twice is there twice); each is the
    match a detail fetch returned for an ID of the listing, and a fetch
    that failed contributes nothing. *)
Theorem returned_matches_are_fetched riotService region :
  (∀ matchID s (m : Match) s',
     GetMatchDetails riotService region matchID s = Some (Ok m, s') →
     ∃ rawMatch,
       makeRequest riotService (matchURL riotService region matchID)
         rawMatch_zero s = Some (Ok rawMatch, s')
       ∧ m = normalize rawMatch
       ∧ MatchID m = raw_MatchID (Metadata rawMatch))
  ∧ (∀ puuid (count : Z) s (matches : slice Match) s',
       GetMatchHistory riotService region puuid count s
       = Some (Ok matches, s') →
       ∃ (matchIDs : slice string) s1 outs,
         makeRequest riotService
           (matchListURL riotService region puuid count)
           (nil_slice : slice string) s = Some (Ok matchIDs, s1)
         ∧ fetchEach riotService region (elems matchIDs) s1
           = Some (outs, s')
         ∧ matches = Slice (successes outs)
         ∧ Ok <$> elems matches = filter (λ r, Is_true (is_Ok r)) outs
         ∧ (Ok <$> elems matches) `sublist_of` outs
         ∧ (∀ m, m ∈ elems matches ↔ Ok m ∈ outs)
         ∧ (∀ m, m ∈ elems matches →
              ∃ matchID sj sj',
                matchID ∈ elems matchIDs
                ∧ GetMatchDetails riotService region matchID sj
                  = Some (Ok m, sj'))).
Proof.
  split.
  - intros matchID s m s'. rewrite GetMatchDetails_run.
    destruct (makeRequest _ _ _ _) as [[[rawMatch|err] s1]|];
      [|discriminate..].
    intros [= <- <-]. exists rawMatch. auto.
  - intros puuid count s matches s'. rewrite GetMatchHistory_run.
    destruct (makeRequest _ _ _ _) as [[[matchIDs|err] s1]|];
      [|discriminate..].
    destruct (fetchEach _ _ _ _) as [[outs s2]|] eqn:Hfetch; [|discriminate].
    intros [= <- <-]. exists matchIDs, s1, outs. cbn [elems].
    repeat apply conj; try reflexivity.
    + exact Hfetch.
    + apply successes_filter.
    + apply successes_sublist.
    + intros m. apply elem_of_successes.
    + intros m Hm%elem_of_successes.
      pose proof (fetchEach_outcomes _ _ _ _ _ _ Hfetch) as Hout.
      apply list_elem_of_lookup in Hm as [j Hj].
      destruct (Forall2_lookup_r _ _ _ _ _ Hout Hj)
        as (matchID & Hid & sj & sj' & Hrun).
      exists matchID, sj, sj'. split; [|exact Hrun].
      apply list_elem_of_lookup. eauto.
Qed.

End History.

(** The listing of the stub server for [test-puuid] has two IDs; the
    details of the first are served, those of the second are answered 404. *)
Lemma GetMatchHistory_one_failure_witness :
  services.GetMatchHistory (RT := httptest.runtime)
    (decodeIDs := httptest.decodeIDs) (decodeMatch := httptest.decodeMatch)
    httptest.service "na" "test-puuid" 10 httptest.start
  = Some (Ok (Slice [normalize httptest.matchDecoded]),
          httptest.requested
            [ "/lol/match/v5/matches/by-puuid/test-puuid/ids?start=0&count=10";
              "/lol/match/v5/matches/NA1_123";
              "/lol/match/v5/matches/NA1_124" ]).
Proof.
  destruct (GetMatchHistory_one_failure (RT := httptest.runtime)
              (decodeIDs := httptest.decodeIDs)
              (decodeMatch := httptest.decodeMatch)
              httptest.service "na" "test-puuid" 10 httptest.start
              (httptest.requested
                 [ "/lol/match/v5/matches/by-puuid/test-puuid/ids?start=0&count=10" ])
              (httptest.requested
                 [ "/lol/match/v5/matches/by-puuid/test-puuid/ids?start=0&count=10";
                   "/lol/match/v5/matches/NA1_123";
                   "/lol/match/v5/matches/NA1_124" ])
              (Slice ["NA1_123"; "NA1_124"])
              [ Ok (normalize httptest.matchDecoded);
                Err (fmt_Errorf_w "failed to get match details: "
                       httptest.notFound) ]
              1%nat
              (fmt_Errorf_w "failed to get match details: " httptest.notFound))
    as (ms & Hrun & Hlen & Heq & _).
  - vm_compute. reflexivity.
  - vm_compute. reflexivity.
  - reflexivity.
  - intros [|[|[|j]]] r Hj Hr; try discriminate Hr.
    + injection Hr as <-. eexists. reflexivity.
    + contradiction Hj. reflexivity.
  - destruct ms as [|m [|m' ms]]; try discriminate Hlen.
    injection Heq as ->. exact Hrun.
Defined.

(** The listing of the stub server for [other-puuid] has one ID, whose
    details are served. *)
Lemma GetMatchHistory_all_succeed_witness :
  services.GetMatchHistory (RT := httptest.runtime)
    (decodeIDs := httptest.decodeIDs) (decodeMatch := httptest.decodeMatch)
    httptest.service "na" "other-puuid" 10 httptest.start
  = Some (Ok (Slice [normalize httptest.matchDecoded]),
          httptest.requested
            [ "/lol/match/v5/matches/by-puuid/other-puuid/ids?start=0&count=10";
              "/lol/match/v5/matches/NA1_123" ]).
Proof.
  apply (GetMatchHistory_all_succeed (RT := httptest.runtime)
           (decodeIDs := httptest.decodeIDs)
           (decodeMatch := httptest.decodeMatch)
           httptest.service "na" "other-puuid" 10 httptest.start
           (httptest.requested
              [ "/lol/match/v5/matches/by-puuid/other-puuid/ids?start=0&count=10" ])
           (httptest.requested
              [ "/lol/match/v5/matches/by-puuid/other-puuid/ids?start=0&count=10";
                "/lol/match/v5/matches/NA1_123" ])
           (Slice ["NA1_123"]) [normalize httptest.matchDecoded]).
  - vm_compute. reflexivity.
  - vm_compute. reflexivity.
Defined.

(** The stub server has no listing for [unknown-puuid]: 404. *)
Lemma GetMatchHistory_listing_fails_witness :
  let listing :=
    requestFor httptest.service
      (httptest.baseURL
         +:+ "/lol/match/v5/matches/by-puuid/unknown-puuid/ids?start=0&count=10")
  in
  services.GetMatchHistory (RT := httptest.runtime)
    (decodeIDs := httptest.decodeIDs) (decodeMatch := httptest.decodeMatch)
    httptest.service "na" "unknown-puuid" 10 httptest.start
  = Some (Err (wrapError
                 "failed to get match list: API request failed with status 404: Not found"
                 (errorString "API request failed with status 404: Not found")),
          after httptest.start listing []).
Proof.
  intros listing.
  apply (GetMatchHistory_listing_fails (RT := httptest.runtime)
           (decodeIDs := httptest.decodeIDs)
           (decodeMatch := httptest.decodeMatch)
           httptest.service "na" "unknown-puuid" 10 httptest.start
           (after httptest.start listing [])
           (errorString "API request failed with status 404: Not found")).
  reflexivity.
Defined.

(** On the stub server the one match of the history of [test-puuid] is the
    payload served for NA1_123. *)
Lemma returned_matches_are_fetched_witness :
  (∃ rawMatch,
     normalize httptest.matchDecoded = normalize rawMatch
     ∧ models.MatchID (normalize httptest.matchDecoded)
       = services.raw_MatchID (services.Metadata rawMatch))
  ∧ (∃ outs,
       [Ok (normalize httptest.matchDecoded)] `sublist_of` outs
       ∧ length outs = 2%nat)
  ∧ ∃ outs,
      outs = [ Ok (normalize httptest.matchDecoded);
               Ok (normalize httptest.matchDecoded) ]
      ∧ Slice [ normalize httptest.matchDecoded;
                normalize httptest.matchDecoded ] = Slice (successes outs).
Proof.
  pose proof (returned_matches_are_fetched (RT := httptest.runtime)
                (decodeIDs := httptest.decodeIDs)
                (decodeMatch := httptest.decodeMatch)
                httptest.service "na") as [Hdetails Hhistory].
  pose proof (proj2 (returned_matches_are_fetched (RT := httptest2.runtime)
                       (decodeIDs := httptest2.decodeIDs)
                       (decodeMatch := httptest.decodeMatch)
                       httptest2.service "na")) as Htwice.
  split; [|split].
  - destruct (Hdetails "NA1_123" httptest.start
                (normalize httptest.matchDecoded)
                (httptest.requested ["/lol/match/v5/matches/NA1_123"]))
      as (rawMatch & _ & Hnorm & Hid); [vm_compute; reflexivity|].
    exists rawMatch. split; [exact Hnorm|exact Hid].
  - destruct (Hhistory "test-puuid" 10 httptest.start
                (Slice [normalize httptest.matchDecoded])
                (httptest.requested
                   [ "/lol/match/v5/matches/by-puuid/test-puuid/ids?start=0&count=10";
                     "/lol/match/v5/matches/NA1_123";
                     "/lol/match/v5/matches/NA1_124" ]))
      as (matchIDs & s1 & outs & Hlist & Hfetch & _ & _ & Hsub & _);
      [vm_compute; reflexivity|].
    exists outs. split; [exact Hsub|].
    vm_compute in Hlist. injection Hlist as <- <-.
    vm_compute in Hfetch. injection Hfetch as <-. reflexivity.
  - destruct (Htwice "twice-puuid" 10 httptest2.start
                (Slice [ normalize httptest.matchDecoded;
                         normalize httptest.matchDecoded ])
                (httptest2.requested
                   [ "https://americas.api.riotgames.com/lol/match/v5/matches/by-puuid/twice-puuid/ids?start=0&count=10";
                     "https://americas.api.riotgames.com/lol/match/v5/matches/NA1_123";
                     "https://americas.api.riotgames.com/lol/match/v5/matches/NA1_123" ]))
      as (matchIDs & s1 & outs & Hlist & Hfetch & Hseq & _);
      [vm_compute; reflexivity|].
    exists outs. split; [|exact Hseq].
    vm_compute in Hlist. injection Hlist as <- <-.
    vm_compute in Hfetch. injection Hfetch as <-. reflexivity.
Defined.

(** The stub server answers the details of NA1_125 with the empty JSON
    object, status 200: the match returned has an empty [MatchID]. *)
Lemma GetMatchDetails_empty_matchId :
  ∃ m s',
    services.GetMatchDetails (RT := httptest.runtime)
      (decodeMatch := httptest.decodeMatch) httptest.service "na" "NA1_125"
      httptest.start = Some (Ok m, s')
    ∧ models.MatchID m = "".
Proof.
  exists (normalize services.rawMatch_zero),
    (httptest.requested ["/lol/match/v5/matches/NA1_125"]).
  split; vm_compute; reflexivity.
Qed.

(** ** The count of a matches request *)

Section Handlers.
Context {RT : Runtime}.
Context {decodeRequest : Unmarshal api.matchRequest} {strconv : api.Strconv}.
Import models api.

(** C9. The count that a matches handler passes to [GetMatchHistory], for
    any implementation of the service. [GetMatchesByRiotID], for a body
    that decodes to a request with a region and an identity that resolves
    to a PUUID: the count of the request when it is positive, 20 when it
    is zero or negative, and so 20 when the decoder left the field at its
    zero value. [GetMatches]: 20 when the query has no count; for a count
    that [strconv.Atoi] parses, the number when it is positive and 20
    otherwise; 20 when it does not parse. *)
Theorem matches_count_default (handler : Handler) (request : http_Request) :
  (∀ (matchRequest : matchRequest) (s s1 : Net) (puuid : string),
     json_Decode (request_Body request) matchRequest_zero = Ok matchRequest →
     Region matchRequest ≠ "" →
     (PUUID matchRequest ≠ "" ∧ puuid = PUUID matchRequest ∧ s1 = s)
     ∨ (PUUID matchRequest = ""
        ∧ GameName matchRequest ≠ "" ∧ TagLine matchRequest ≠ ""
        ∧ ∃ summoner,
            GetSummonerByRiotID (riotService handler) (Region matchRequest)
              (GameName matchRequest) (TagLine matchRequest) s
            = Some (Ok summoner, s1)
            ∧ puuid = Summoner_PUUID summoner) →
     ∃ count : Z,
       GetMatchesByRiotID handler request s
       = written (GetMatchHistory (riotService handler)
                    (Region matchRequest) puuid count s1)
       ∧ (0 < Count matchRequest → count = Count matchRequest)
       ∧ (Count matchRequest ≤ 0 → count = 20)
       ∧ (Count matchRequest = Count matchRequest_zero → count = 20))
  ∧ (∀ s : Net,
       let countStr := Values_Get (request_Query request) "count" in
       ∃ count : Z,
         GetMatches handler request s
         = written (GetMatchHistory (riotService handler)
                      (Vars_get (request_Vars request) "region")
                      (Vars_get (request_Vars request) "puuid") count s)
         ∧ (countStr = "" → count = 20)
         ∧ (∀ n, countStr ≠ "" → strconv_Atoi countStr = Ok n →
                 (0 < n → count = n) ∧ (n ≤ 0 → count = 20))
         ∧ (∀ err, strconv_Atoi countStr = Err err → count = 20)).
Proof.
  split.
  - intros matchRequest s s1 puuid Hdec Hregion Hid.
    exists (if bool_decide (Count matchRequest ≤ 0) then 20
            else Count matchRequest).
    split.
    + unfold GetMatchesByRiotID. rewrite Hdec.
      rewrite bool_decide_eq_false_2 by exact Hregion.
      unfold written.
      destruct Hid as [(Hp & -> & ->)
                      |(Hp & Hg & Ht & summoner & Hsum & ->)].
      * rewrite (bool_decide_eq_true_2 (PUUID matchRequest ≠ "")) by exact Hp.
        unfold mbind, M_bind. cbn [mret M_ret].
        destruct (GetMatchHistory _ _ _ _ _) as [[[matches|err] s2]|];
          reflexivity.
      * rewrite (bool_decide_eq_false_2 (PUUID matchRequest ≠ ""))
          by (rewrite Hp; auto).
        rewrite (bool_decide_eq_true_2
                   (GameName matchRequest ≠ "" ∧ TagLine matchRequest ≠ ""))
          by auto.
        unfold mbind, M_bind. rewrite Hsum. cbn [mret M_ret].
        destruct (GetMatchHistory _ _ _ _ _) as [[[matches|err] s2]|];
          reflexivity.
    + repeat split; intros Hc; case_bool_decide; try reflexivity.
      * lia.
      * lia.
      * cbn [Count matchRequest_zero] in Hc. lia.
  - intros s countStr.
    exists (if bool_decide (countStr ≠ "") then
              match strconv_Atoi countStr with
              | Ok parsedCount =>
                  if bool_decide (parsedCount > 0) then parsedCount else 20
              | Err _ => 20
              end
            else 20).
    split.
    + unfold GetMatches, written. fold countStr.
      unfold mbind, M_bind. cbn [mret M_ret].
      destruct (GetMatchHistory _ _ _ _ _) as [[[matches|err] s2]|];
        reflexivity.
    + repeat split.
      * intros ->. reflexivity.
      * intros Hpos. rewrite (bool_decide_eq_true_2 (countStr ≠ ""))
          by assumption.
        match goal with H : strconv_Atoi _ = _ |- _ => rewrite H end.
        rewrite bool_decide_eq_true_2 by lia. reflexivity.
      * intros Hneg. rewrite (bool_decide_eq_true_2 (countStr ≠ ""))
          by assumption.
        match goal with H : strconv_Atoi _ = _ |- _ => rewrite H end.
        rewrite bool_decide_eq_false_2 by lia. reflexivity.
      * intros err Herr. rewrite Herr. case_bool_decide; reflexivity.
Qed.

End Handlers.

(** A mock of the service records the count it is called with: 20 for a
    body without a count, 5 for a body or a query with the count 5, 20 for
    the queries without a count and with the count -3. *)
Lemma matches_count_default_witness :
  let handler := api.NewHandler httptest.mock in
  let byRiotID body :=
    api.GetMatchesByRiotID (decodeRequest := httptest.decodeRequest) handler
      (httptest.post body) httptest.start in
  let matches count :=
    api.GetMatches (strconv := httptest.atoi) handler (httptest.get count)
      httptest.start in
  let recorded (count : Z) :=
    Some (api.json_Encode (Slice []), @Build_Net httptest.runtime [count] [])
  in
  byRiotID httptest.requestPayload = recorded 20
  ∧ byRiotID httptest.requestPayload5 = recorded 5
  ∧ matches ["5"] = recorded 5
  ∧ matches [] = recorded 20
  ∧ matches ["-3"] = recorded 20.
Proof.
  intros handler byRiotID matches recorded.
  pose proof (λ request,
    proj1 (matches_count_default (RT := httptest.runtime)
             (decodeRequest := httptest.decodeRequest)
             (strconv := httptest.atoi) handler request)) as Hbody.
  pose proof (λ request,
    proj2 (matches_count_default (RT := httptest.runtime)
             (decodeRequest := httptest.decodeRequest)
             (strconv := httptest.atoi) handler request)) as Hquery.
  repeat apply conj.
  - destruct (Hbody (httptest.post httptest.requestPayload)
                {| api.Region := "na"; api.GameName := ""; api.TagLine := "";
                   api.PUUID := "test-puuid"; api.Count := 0 |}
                httptest.start httptest.start "test-puuid")
      as (count & Hrun & _ & _ & Hzero).
    + reflexivity.
    + discriminate.
    + left. repeat split. discriminate.
    + unfold byRiotID. rewrite Hrun, (Hzero eq_refl). reflexivity.
  - destruct (Hbody (httptest.post httptest.requestPayload5)
                {| api.Region := "na"; api.GameName := ""; api.TagLine := "";
                   api.PUUID := "test-puuid"; api.Count := 5 |}
                httptest.start httptest.start "test-puuid")
      as (count & Hrun & Hpos & _ & _).
    + reflexivity.
    + discriminate.
    + left. repeat split. discriminate.
    + unfold byRiotID. rewrite Hrun, Hpos by (cbn; lia). reflexivity.
  - destruct (Hquery (httptest.get ["5"]) httptest.start)
      as (count & Hrun & _ & Hparsed & _).
    unfold matches. rewrite Hrun.
    rewrite (proj1 (Hparsed 5 ltac:(discriminate) eq_refl)) by lia.
    reflexivity.
  - destruct (Hquery (httptest.get []) httptest.start)
      as (count & Hrun & Hnone & _).
    unfold matches. rewrite Hrun, (Hnone eq_refl). reflexivity.
  - destruct (Hquery (httptest.get ["-3"]) httptest.start)
      as (count & Hrun & _ & Hparsed & _).
    unfold matches. rewrite Hrun.
    rewrite (proj2 (Hparsed (-3) ltac:(discriminate) eq_refl)) by lia.
    reflexivity.
Defined.

(** ** The first generation of the service

    The service of the first generation behaves as the one of the second
    with no override of the base URL: what is proved above of
    [makeRequest], [GetMatchDetails] and [GetMatchHistory] holds for it. *)

Section Legacy.
Context {RT : Runtime}.
Context {decodeAccount : Unmarshal services.accountInfo}
        {decodeSummoner : Unmarshal models.Summoner}
        {decodeIDs : Unmarshal (slice string)}
        {decodeMatch : Unmarshal services.rawMatch}.
Implicit Types (riotService : legacy.RiotService) (s : Net).

Lemma legacy_makeRequest {T} {decode : Unmarshal T} riotService
    (url : string) (target : T) :
  legacy.makeRequest riotService url target
  = services.makeRequest (legacy.upgrade riotService) url target.
Proof. reflexivity. Qed.

Lemma legacy_GetMatchDetails riotService (region matchID : string) :
  legacy.GetMatchDetails riotService region matchID
  = services.GetMatchDetails (legacy.upgrade riotService) region matchID.
Proof. reflexivity. Qed.

Lemma legacy_rangeMatchIDs riotService (region : string)
    (matchIDs : list string) :
  ∀ (matches : slice models.Match) s,
    legacy.rangeMatchIDs riotService region matchIDs matches s
    = services.rangeMatchIDs (legacy.upgrade riotService) region matchIDs
        matches s.
Proof.
  induction matchIDs as [|matchID rest IH]; intros matches s; [reflexivity|].
  cbn [legacy.rangeMatchIDs services.rangeMatchIDs].
  rewrite legacy_GetMatchDetails. unfold mbind, M_bind.
  destruct (services.GetMatchDetails _ _ _ _) as [[[match_|err] s1]|];
    [apply IH|apply IH|reflexivity].
Qed.

(** X20. [GetMatchHistory] of the first generation of the service returns
    the same result and sends the same requests as the one of the second
    generation for the same key and client and no override of the base
    URL. *)
Lemma legacy_GetMatchHistory riotService (region puuid : string) (count : Z)
    s :
  legacy.GetMatchHistory riotService region puuid count s
  = services.GetMatchHistory (legacy.upgrade riotService) region puuid count
      s.
Proof.
  unfold legacy.GetMatchHistory, services.GetMatchHistory.
  rewrite legacy_makeRequest. unfold mbind at 1 3. unfold M_bind at 1 3.
  change (services.buildURL (legacy.upgrade riotService)
            (services.getMatchRegionalURL region)
            ("/lol/match/v5/matches/by-puuid/" +:+ puuid
               +:+ "/ids?start=0&count=" +:+ fmt_d count))
    with ("https://" +:+ services.getMatchRegionalURL region
            +:+ "/lol/match/v5/matches/by-puuid/" +:+ puuid
            +:+ "/ids?start=0&count=" +:+ fmt_d count).
  destruct (services.makeRequest _ _ _ _) as [[[matchIDs|err] s1]|];
    [|reflexivity..].
  unfold mbind, M_bind. rewrite legacy_rangeMatchIDs. reflexivity.
Qed.

End Legacy.

(** * Further properties *)

(** ** Requests *)

Section Requests.
Context {RT : Runtime} {T : Type} {decode : Unmarshal T}.
Implicit Types (riotService : services.RiotService) (url : string)
  (target : T) (s : Net).

(** A successful [makeRequest] has handed its request to the client. *)
Lemma makeRequest_Ok_sent riotService url target s (v : T) s' :
  services.makeRequest riotService url target s = Some (Ok v, s') →
  sent s' = sent s ++ [requestFor riotService url].
Proof.
  rewrite makeRequest_run.
  destruct (url_Parse url); [discriminate|]. cbv zeta.
  destruct (Do _ _ _) as [[response|err] w]; [|discriminate].
  case_bool_decide; [|discriminate].
  destruct (json_Decode _ _); [|discriminate].
  intros [= _ <-]. reflexivity.
Qed.

(** X1. For a URL that parses, [makeRequest] calls [Do] of the client of
    the service exactly once, whatever the outcome (success, status,
    client or decoding error), with a GET of the URL whose only header is
    [X-Riot-Token] with the API key of the service; the world it leaves
    is the one that call left. The service makes no second attempt; what
    the client sends on its own to follow a redirect is inside [Do]. *)
Theorem makeRequest_one_request riotService url target s :
  url_Parse url = None →
  let request :=
    {| Method := "GET"; URL := url;
       Header := [("X-Riot-Token", services.apiKey riotService)] |} in
  ∃ r : result T,
    services.makeRequest riotService url target s
    = Some (r, {| world :=
                    (Do (services.httpClient riotService) request
                       (world s)).2;
                  sent := sent s ++ [request] |}).
Proof.
  intros Hurl request. rewrite makeRequest_run, Hurl. cbv zeta.
  change (requestFor riotService url) with request.
  destruct (Do _ _ _) as [[response|err] w]; cbn [snd].
  - case_bool_decide; [|eexists; reflexivity].
    destruct (json_Decode _ _); eexists; reflexivity.
  - eexists. reflexivity.
Qed.

(** X2. For a URL that does not parse, [makeRequest] returns the error of
    the parser wrapped under [failed to create request: ] and leaves the
    state as it was: [Do] is not called. *)
Theorem makeRequest_invalid_url riotService url target s (err : error) :
  url_Parse url = Some err →
  services.makeRequest riotService url target s
  = Some (Err (wrapError ("failed to create request: " +:+ Error err) err), s).
Proof. intros Hurl. rewrite makeRequest_run, Hurl. reflexivity. Qed.

End Requests.

(** The stub server is asked for [/limited] once. *)
Lemma makeRequest_one_request_witness :
  ∃ r,
    services.makeRequest (RT := httptest.runtime)
      (decode := httptest.decodeObject) httptest.service
      (httptest.baseURL +:+ "/limited") services.accountInfo_zero
      httptest.start
    = Some (r, httptest.requested ["/limited"]).
Proof.
  destruct (makeRequest_one_request (RT := httptest.runtime)
              (decode := httptest.decodeObject) httptest.service
              (httptest.baseURL +:+ "/limited") services.accountInfo_zero
              httptest.start eq_refl) as [r Hrun].
  exists r. exact Hrun.
Defined.

(** The URL [:] has no scheme. *)
Lemma makeRequest_invalid_url_witness :
  services.makeRequest (RT := httptest2.runtime)
    (decode := httptest.decodeObject) httptest2.service ":"
    services.accountInfo_zero httptest2.start
  = Some (Err (wrapError
                 ("failed to create request: "
                    +:+ Error httptest2.missingScheme)
                 httptest2.missingScheme), httptest2.start).
Proof.
  apply (makeRequest_invalid_url (RT := httptest2.runtime)
           (decode := httptest.decodeObject) httptest2.service ":"
           services.accountInfo_zero httptest2.start
           httptest2.missingScheme).
  reflexivity.
Defined.

(** ** Composition of the look-ups *)

Section Lookups.
Context {RT : Runtime}.
Context {decodeAccount : Unmarshal services.accountInfo}
        {decodeSummoner : Unmarshal models.Summoner}
        {decodeMatch : Unmarshal services.rawMatch}.
Import models services.
Implicit Types (riotService : RiotService) (region : string) (s : Net).

(** X3. When the account look-up and the summoner look-up succeed,
    [GetSummonerByRiotID] returns the summoner of the second answer and
    has called [Do] of its client twice: first with the request of the
    account look-up on the continental host, then with the request of the
    summoner look-up on the platform host for the PUUID of the account
    answer. *)
Theorem GetSummonerByRiotID_success riotService region
    (gameName tagLine : string) s s1 s2 (accountInfo : accountInfo)
    (summoner : Summoner) :
  makeRequest riotService
    (accountEndpoint riotService region gameName tagLine) accountInfo_zero s
  = Some (Ok accountInfo, s1) →
  makeRequest riotService
    (summonerURL riotService region (accountInfo_PUUID accountInfo))
    Summoner_zero s1 = Some (Ok summoner, s2) →
  GetSummonerByRiotID riotService region gameName tagLine s
  = Some (Ok summoner, s2)
  ∧ sent s2
    = sent s
        ++ [ requestFor riotService
               (accountEndpoint riotService region gameName tagLine);
             requestFor riotService
               (summonerURL riotService region
                  (accountInfo_PUUID accountInfo)) ].
Proof.
  intros Haccount Hsummoner. split.
  - rewrite GetSummonerByRiotID_run, Haccount, GetSummonerByPUUID_run,
      Hsummoner. reflexivity.
  - rewrite (makeRequest_Ok_sent _ _ _ _ _ _ Hsummoner).
    rewrite (makeRequest_Ok_sent _ _ _ _ _ _ Haccount).
    rewrite <- app_assoc. reflexivity.
Qed.

(** X4. When [Do] returns for the request of [GetMatchDetails] an answer
    with a status other than 200 (the answer the client ends on, after the
    redirects it followed), the call returns no match and an error whose
    message is [failed to get match details: API request failed with
    status], the status in decimal, a colon and the body of the answer;
    the error wraps the error of the request, and [Do] was called once. *)
Theorem GetMatchDetails_upstream_failure riotService region
    (matchID : string) s (response : Response) (w : World) :
  let url := matchURL riotService region matchID in
  url_Parse url = None →
  Do (httpClient riotService) (requestFor riotService url) (world s)
  = (Ok response, w) →
  StatusCode response ≠ 200 →
  ∃ err : error,
    GetMatchDetails riotService region matchID s
    = Some (Err err, after s (requestFor riotService url) w)
    ∧ Error err
      = "failed to get match details: API request failed with status "
          +:+ fmt_d (StatusCode response) +:+ ": "
          +:+ content (Body response)
    ∧ Unwrap err
      = Some (UpstreamError (StatusCode response) (content (Body response))).
Proof.
  intros url Hurl Hdo Hcode.
  exists (fmt_Errorf_w "failed to get match details: "
            (UpstreamError (StatusCode response) (content (Body response)))).
  split; [|split; reflexivity].
  rewrite GetMatchDetails_run. fold url.
  rewrite makeRequest_run, Hurl. cbv zeta. rewrite Hdo.
  rewrite bool_decide_eq_false_2 by exact Hcode. reflexivity.
Qed.

End Lookups.

(** The second stub server knows TestPlayer#NA1. *)
Lemma GetSummonerByRiotID_success_witness :
  services.GetSummonerByRiotID (RT := httptest2.runtime)
    (decodeAccount := httptest2.decodeAccount)
    (decodeSummoner := httptest2.decodeSummoner) httptest2.service
    "na" "TestPlayer" "NA1" httptest2.start
  = Some (Ok httptest2.summonerDecoded,
          httptest2.requested
            [ "https://americas.api.riotgames.com/riot/account/v1/accounts/by-riot-id/TestPlayer/NA1";
              "https://na1.api.riotgames.com/lol/summoner/v4/summoners/by-puuid/test-puuid" ]).
Proof.
  apply (GetSummonerByRiotID_success (RT := httptest2.runtime)
           (decodeAccount := httptest2.decodeAccount)
           (decodeSummoner := httptest2.decodeSummoner) httptest2.service
           "na" "TestPlayer" "NA1" httptest2.start
           (httptest2.requested
              [ "https://americas.api.riotgames.com/riot/account/v1/accounts/by-riot-id/TestPlayer/NA1" ])
           (httptest2.requested
              [ "https://americas.api.riotgames.com/riot/account/v1/accounts/by-riot-id/TestPlayer/NA1";
                "https://na1.api.riotgames.com/lol/summoner/v4/summoners/by-puuid/test-puuid" ])
           httptest2.accountDecoded httptest2.summonerDecoded).
  - vm_compute. reflexivity.
  - vm_compute. reflexivity.
Defined.

(** The stub server has no match NA1_124. *)
Lemma GetMatchDetails_upstream_failure_witness :
  ∃ err,
    services.GetMatchDetails (RT := httptest.runtime)
      (decodeMatch := httptest.decodeMatch) httptest.service "na" "NA1_124"
      httptest.start
    = Some (Err err, httptest.requested ["/lol/match/v5/matches/NA1_124"])
    ∧ Error err
      = "failed to get match details: API request failed with status 404: Not found".
Proof.
  destruct (GetMatchDetails_upstream_failure (RT := httptest.runtime)
              (decodeMatch := httptest.decodeMatch) httptest.service
              "na" "NA1_124" httptest.start
              {| StatusCode := 404;
                 Body := {| content := "Not found"; readErr := None |} |} [])
    as (err & Hrun & Hmsg & _).
  - reflexivity.
  - reflexivity.
  - discriminate.
  - exists err. split; [exact Hrun|]. rewrite Hmsg. reflexivity.
Defined.

(** ** The requests and the results of a match history *)

Lemma successes_failures (outs : list (result models.Match)) :
  (length (successes outs) + length (failures outs))%nat = length outs.
Proof.
  induction outs as [|[m|err] outs IH]; cbn; [reflexivity|..];
    fold (successes outs); fold (failures outs); lia.
Qed.

Section Histories.
Context {RT : Runtime}.
Context {decodeIDs : Unmarshal (slice string)}
        {decodeMatch : Unmarshal services.rawMatch}.
Import models services.
Implicit Types (riotService : RiotService) (region puuid : string) (s : Net).

(** A request for a URL that parses is one more request sent. *)
Lemma makeRequest_parsed_sent {T} {decode : Unmarshal T} riotService
    (url : string) (target : T) s (r : result T) s' :
  url_Parse url = None →
  makeRequest riotService url target s = Some (r, s') →
  sent s' = sent s ++ [requestFor riotService url].
Proof.
  intros Hurl. rewrite makeRequest_run, Hurl. cbv zeta.
  destruct (Do _ _ _) as [[response|err] w].
  - case_bool_decide; [|intros [= _ <-]; reflexivity].
    destruct (json_Decode _ _); intros [= _ <-]; reflexivity.
  - intros [= _ <-]. reflexivity.
Qed.

(** The detail fetches send one request per ID, in the order of the IDs. *)
Lemma fetchEach_sent riotService region (matchIDs : list string) :
  ∀ s outs s',
    Forall (λ matchID, url_Parse (matchURL riotService region matchID) = None)
      matchIDs →
    fetchEach riotService region matchIDs s = Some (outs, s') →
    sent s'
    = sent s
        ++ ((λ matchID, requestFor riotService
                          (matchURL riotService region matchID))
              <$> matchIDs).
Proof.
  induction matchIDs as [|matchID rest IH]; intros s outs s' Hparse.
  - intros [= _ <-]. cbn. rewrite app_nil_r. reflexivity.
  - apply Forall_cons in Hparse as [Hurl Hrest].
    cbn [fetchEach]. unfold mbind, M_bind.
    rewrite GetMatchDetails_run.
    destruct (makeRequest _ _ _ _) as [[r s1]|] eqn:Hreq;
      [|discriminate].
    pose proof (makeRequest_parsed_sent _ _ _ _ _ _ Hurl Hreq) as Hsent.
    assert (∃ outs1 s2, fetchEach riotService region rest s1
                        = Some (outs1, s2)) as (outs1 & s2 & Hfetch)
      by apply fetchEach_returns.
    pose proof (IH _ _ _ Hrest Hfetch) as Hsent2.
    destruct r as [rawMatch|err]; rewrite Hfetch; intros [= _ <-];
      rewrite Hsent2, Hsent, <- app_assoc; reflexivity.
Qed.

(** X5. When the listing call succeeds and the URLs of the details parse,
    [GetMatchHistory] returns a history and has called [Do] of its client
    with the listing request and then with one detail request per listed
    ID, once each and in the order of the listing, whether the fetches
    succeed or fail: no fetch is skipped after a failure and the service
    repeats none. *)
Theorem GetMatchHistory_requests riotService region puuid (count : Z)
    s s1 (matchIDs : slice string) :
  makeRequest riotService (matchListURL riotService region puuid count)
    (nil_slice : slice string) s = Some (Ok matchIDs, s1) →
  Forall (λ matchID, url_Parse (matchURL riotService region matchID) = None)
    (elems matchIDs) →
  ∃ (ms : list Match) s2,
    GetMatchHistory riotService region puuid count s
    = Some (Ok (Slice ms), s2)
    ∧ sent s2
      = sent s
          ++ requestFor riotService
               (matchListURL riotService region puuid count)
             :: ((λ matchID, requestFor riotService
                               (matchURL riotService region matchID))
                   <$> elems matchIDs).
Proof.
  intros Hlist Hparse.
  destruct (fetchEach_returns riotService region (elems matchIDs) s1)
    as (outs & s2 & Hfetch).
  exists (successes outs), s2. split.
  - rewrite GetMatchHistory_run, Hlist, Hfetch. reflexivity.
  - rewrite (fetchEach_sent _ _ _ _ _ _ Hparse Hfetch).
    rewrite (makeRequest_Ok_sent _ _ _ _ _ _ Hlist).
    rewrite <- app_assoc. reflexivity.
Qed.

(** X6. A history that [GetMatchHistory] returns is never the nil slice,
    and it has as many matches as the listing has IDs less the number of
    detail fetches that failed; when every fetch failed it is empty, and
    the call has still returned no error. *)
Theorem GetMatchHistory_counts riotService region puuid (count : Z)
    s s' (matches : slice Match) :
  GetMatchHistory riotService region puuid count s = Some (Ok matches, s') →
  ∃ (ms : list Match) (matchIDs : slice string) s1 outs,
    matches = Slice ms
    ∧ makeRequest riotService (matchListURL riotService region puuid count)
        (nil_slice : slice string) s = Some (Ok matchIDs, s1)
    ∧ fetchEach riotService region (elems matchIDs) s1 = Some (outs, s')
    ∧ (length ms + length (failures outs))%nat = len matchIDs
    ∧ (length (failures outs) = len matchIDs → ms = []).
Proof.
  rewrite GetMatchHistory_run.
  destruct (makeRequest _ _ _ _) as [[[matchIDs|err] s1]|]; [|discriminate..].
  destruct (fetchEach _ _ _ _) as [[outs s2]|] eqn:Hfetch; [|discriminate].
  intros [= <- <-]. exists (successes outs), matchIDs, s1, outs.
  pose proof (Forall2_length _ _ _ (fetchEach_outcomes _ _ _ _ _ _ Hfetch))
    as Hlen.
  pose proof (successes_failures outs) as Hsum. unfold len.
  repeat apply conj; try reflexivity.
  - exact Hfetch.
  - lia.
  - intros Hall. apply length_zero_iff_nil. lia.
Qed.

(** X7. When the listing call succeeds with no ID, a nil or an empty
    list, [GetMatchHistory] returns the empty history, not nil, in the
    state the listing call left: no detail fetch is attempted. *)
Theorem GetMatchHistory_empty_listing riotService region puuid (count : Z)
    s s1 (matchIDs : slice string) :
  makeRequest riotService (matchListURL riotService region puuid count)
    (nil_slice : slice string) s = Some (Ok matchIDs, s1) →
  len matchIDs = 0%nat →
  GetMatchHistory riotService region puuid count s = Some (Ok (Slice []), s1).
Proof.
  intros Hlist Hlen%length_zero_iff_nil.
  rewrite GetMatchHistory_run, Hlist, Hlen. reflexivity.
Qed.

End Histories.

(** The history of [test-puuid] on the stub server: three requests. *)
Lemma GetMatchHistory_requests_witness :
  ∃ ms s2,
    services.GetMatchHistory (RT := httptest.runtime)
      (decodeIDs := httptest.decodeIDs) (decodeMatch := httptest.decodeMatch)
      httptest.service "na" "test-puuid" 10 httptest.start
    = Some (Ok (Slice ms), s2)
    ∧ sent s2
      = sent (httptest.requested
                [ "/lol/match/v5/matches/by-puuid/test-puuid/ids?start=0&count=10";
                  "/lol/match/v5/matches/NA1_123";
                  "/lol/match/v5/matches/NA1_124" ]).
Proof.
  destruct (GetMatchHistory_requests (RT := httptest.runtime)
              (decodeIDs := httptest.decodeIDs)
              (decodeMatch := httptest.decodeMatch)
              httptest.service "na" "test-puuid" 10 httptest.start
              (httptest.requested
                 [ "/lol/match/v5/matches/by-puuid/test-puuid/ids?start=0&count=10" ])
              (Slice ["NA1_123"; "NA1_124"]))
    as (ms & s2 & Hrun & Hsent).
  - vm_compute. reflexivity.
  - repeat constructor.
  - exists ms, s2. split; [exact Hrun|]. rewrite Hsent. reflexivity.
Defined.

(** The history of [test-puuid] on the stub server: two IDs, one failure,
    one match. *)
Lemma GetMatchHistory_counts_witness :
  ∃ (ms : list models.Match) (outs : list (result models.Match)),
    (length ms + length (failures outs))%nat = 2%nat
    ∧ length (failures outs) = 1%nat.
Proof.
  destruct (GetMatchHistory_counts (RT := httptest.runtime)
              (decodeIDs := httptest.decodeIDs)
              (decodeMatch := httptest.decodeMatch)
              httptest.service "na" "test-puuid" 10 httptest.start
              (httptest.requested
                 [ "/lol/match/v5/matches/by-puuid/test-puuid/ids?start=0&count=10";
                   "/lol/match/v5/matches/NA1_123";
                   "/lol/match/v5/matches/NA1_124" ])
              (Slice [normalize httptest.matchDecoded]))
    as (ms & matchIDs & s1 & outs & _ & Hlist & Hfetch & Hcount & _).
  - vm_compute. reflexivity.
  - exists ms, outs.
    vm_compute in Hlist. injection Hlist as <- <-.
    vm_compute in Hfetch. injection Hfetch as <-.
    split; [exact Hcount|reflexivity].
Defined.

(** The second stub server lists no match for [empty-puuid]. *)
Lemma GetMatchHistory_empty_listing_witness :
  services.GetMatchHistory (RT := httptest2.runtime)
    (decodeIDs := httptest.decodeIDs) (decodeMatch := httptest.decodeMatch)
    httptest2.service "na" "empty-puuid" 10 httptest2.start
  = Some (Ok (Slice []),
          httptest2.requested
            [ "https://americas.api.riotgames.com/lol/match/v5/matches/by-puuid/empty-puuid/ids?start=0&count=10" ]).
Proof.
  apply (GetMatchHistory_empty_listing (RT := httptest2.runtime)
           (decodeIDs := httptest.decodeIDs)
           (decodeMatch := httptest.decodeMatch)
           httptest2.service "na" "empty-puuid" 10 httptest2.start
           (httptest2.requested
              [ "https://americas.api.riotgames.com/lol/match/v5/matches/by-puuid/empty-puuid/ids?start=0&count=10" ])
           (Slice [])).
  - vm_compute. reflexivity.
  - reflexivity.
Defined.

(** ** Regions and hosts *)

Section Regions.
Context {RT : Runtime}.
Context {decodeAccount : Unmarshal services.accountInfo}
        {decodeSummoner : Unmarshal models.Summoner}
        {decodeIDs : Unmarshal (slice string)}
        {decodeMatch : Unmarshal services.rawMatch}.
Import models services.
Implicit Types (riotService : RiotService) (region : string) (s : Net).

(** The operations on matches depend on the region through the URLs built
    on its continental host only. *)
Lemma match_operations_by_url riotService (r1 r2 : string) :
  (∀ path, buildURL riotService (getMatchRegionalURL r1) path
           = buildURL riotService (getMatchRegionalURL r2) path) →
  (∀ matchID s, GetMatchDetails riotService r1 matchID s
                = GetMatchDetails riotService r2 matchID s)
  ∧ (∀ puuid (count : Z) s,
       GetMatchHistory riotService r1 puuid count s
       = GetMatchHistory riotService r2 puuid count s).
Proof.
  intros Hurl.
  assert (∀ matchID s, GetMatchDetails riotService r1 matchID s
                       = GetMatchDetails riotService r2 matchID s) as Hdetails.
  { intros matchID s. rewrite !GetMatchDetails_run. unfold matchURL.
    rewrite Hurl. reflexivity. }
  split; [exact Hdetails|].
  assert (∀ matchIDs s, fetchEach riotService r1 matchIDs s
                        = fetchEach riotService r2 matchIDs s) as Hfetch.
  { induction matchIDs as [|matchID rest IH]; intros s; [reflexivity|].
    cbn [fetchEach]. unfold mbind, M_bind. rewrite Hdetails.
    destruct (GetMatchDetails _ _ _ _) as [[r s1]|]; [|reflexivity].
    rewrite IH. reflexivity. }
  intros puuid count s. rewrite !GetMatchHistory_run. unfold matchListURL.
  rewrite Hurl.
  destruct (makeRequest _ _ _ _) as [[[matchIDs|err] s1]|]; try reflexivity.
  rewrite Hfetch. reflexivity.
Qed.

(** The look-ups of a summoner depend on the region through the URLs built
    on its two hosts only. *)
Lemma summoner_operations_by_url riotService (r1 r2 : string) :
  (∀ path, buildURL riotService (getMatchRegionalURL r1) path
           = buildURL riotService (getMatchRegionalURL r2) path) →
  (∀ path, buildURL riotService (getRegionalURL r1) path
           = buildURL riotService (getRegionalURL r2) path) →
  (∀ puuid s, GetSummonerByPUUID riotService r1 puuid s
              = GetSummonerByPUUID riotService r2 puuid s)
  ∧ (∀ gameName tagLine s,
       GetSummonerByRiotID riotService r1 gameName tagLine s
       = GetSummonerByRiotID riotService r2 gameName tagLine s).
Proof.
  intros Hcontinent Hplatform.
  assert (∀ puuid s, GetSummonerByPUUID riotService r1 puuid s
                     = GetSummonerByPUUID riotService r2 puuid s) as Hpuuid.
  { intros puuid s. rewrite !GetSummonerByPUUID_run. unfold summonerURL.
    rewrite Hplatform. reflexivity. }
  split; [exact Hpuuid|].
  intros gameName tagLine s. rewrite !GetSummonerByRiotID_run.
  unfold accountEndpoint. rewrite Hcontinent.
  destruct (makeRequest _ _ _ _) as [[[accountInfo|err] s1]|];
    try reflexivity.
  apply Hpuuid.
Qed.

(** X8. A service with an override of the base URL sends every request to
    the override followed by the path, and the region plays no role: its
    four operations return the same result and send the same requests for
    any two regions. *)
Theorem override_bypasses_routing riotService (r1 r2 : string) :
  baseURLOverride riotService ≠ "" →
  (∀ baseURL path,
     buildURL riotService baseURL path = baseURLOverride riotService +:+ path)
  ∧ (∀ matchID s, GetMatchDetails riotService r1 matchID s
                  = GetMatchDetails riotService r2 matchID s)
  ∧ (∀ puuid (count : Z) s,
       GetMatchHistory riotService r1 puuid count s
       = GetMatchHistory riotService r2 puuid count s)
  ∧ (∀ puuid s, GetSummonerByPUUID riotService r1 puuid s
                = GetSummonerByPUUID riotService r2 puuid s)
  ∧ (∀ gameName tagLine s,
       GetSummonerByRiotID riotService r1 gameName tagLine s
       = GetSummonerByRiotID riotService r2 gameName tagLine s).
Proof.
  intros Hoverride.
  assert (∀ baseURL path,
            buildURL riotService baseURL path
            = baseURLOverride riotService +:+ path) as Hbuild.
  { intros baseURL path. unfold buildURL.
    rewrite bool_decide_eq_true_2 by exact Hoverride. reflexivity. }
  split; [exact Hbuild|].
  destruct (match_operations_by_url riotService r1 r2) as [Hd Hh].
  { intros path. rewrite !Hbuild. reflexivity. }
  destruct (summoner_operations_by_url riotService r1 r2) as [Hp Hr].
  { intros path. rewrite !Hbuild. reflexivity. }
  { intros path. rewrite !Hbuild. reflexivity. }
  auto.
Qed.

(** X9. The operations on matches depend on the region through its
    continental host only: for two regions of one continent (na and br,
    euw and tr, ...) [GetMatchDetails] and [GetMatchHistory] return the
    same result and send the same requests. *)
Theorem match_operations_by_continent riotService (r1 r2 : string) :
  getMatchRegionalURL r1 = getMatchRegionalURL r2 →
  (∀ matchID s, GetMatchDetails riotService r1 matchID s
                = GetMatchDetails riotService r2 matchID s)
  ∧ (∀ puuid (count : Z) s,
       GetMatchHistory riotService r1 puuid count s
       = GetMatchHistory riotService r2 puuid count s).
Proof.
  intros Hhost. apply match_operations_by_url.
  intros path. rewrite Hhost. reflexivity.
Qed.

(** X10. A region code that is not in the tables is served as [na],
    silently: each of the four operations returns for it what it returns
    for [na], and sends the same requests. *)
Theorem unknown_region_as_na riotService region :
  region ∉ regions →
  (∀ matchID s, GetMatchDetails riotService region matchID s
                = GetMatchDetails riotService "na" matchID s)
  ∧ (∀ puuid (count : Z) s,
       GetMatchHistory riotService region puuid count s
       = GetMatchHistory riotService "na" puuid count s)
  ∧ (∀ puuid s, GetSummonerByPUUID riotService region puuid s
                = GetSummonerByPUUID riotService "na" puuid s)
  ∧ (∀ gameName tagLine s,
       GetSummonerByRiotID riotService region gameName tagLine s
       = GetSummonerByRiotID riotService "na" gameName tagLine s).
Proof.
  intros Hnot.
  assert (getMatchRegionalURL region = getMatchRegionalURL "na") as Hc.
  { unfold getMatchRegionalURL at 1.
    rewrite continentalRouting_unknown by exact Hnot. reflexivity. }
  assert (getRegionalURL region = getRegionalURL "na") as Hp.
  { unfold getRegionalURL at 1.
    rewrite regionalRouting_unknown by exact Hnot. reflexivity. }
  destruct (match_operations_by_url riotService region "na") as [Hd Hh].
  { intros path. rewrite Hc. reflexivity. }
  destruct (summoner_operations_by_url riotService region "na") as [Hs Hr].
  { intros path. rewrite Hc. reflexivity. }
  { intros path. rewrite Hp. reflexivity. }
  auto.
Qed.

End Regions.

(** X11. Whatever the region, [getRegionalURL] returns one of the eleven
    platform hosts and [getMatchRegionalURL] one of the four continental
    hosts; two different codes of the tables have different platform
    hosts. *)
Theorem routing_range (region r1 r2 : string) :
  services.getRegionalURL region ∈ platformHosts
  ∧ services.getMatchRegionalURL region ∈ continentalHosts
  ∧ (r1 ∈ regions → r2 ∈ regions →
     services.getRegionalURL r1 = services.getRegionalURL r2 → r1 = r2).
Proof.
  assert (∀ r, r ∈ regions →
            services.getRegionalURL r ∈ platformHosts
            ∧ services.getMatchRegionalURL r ∈ continentalHosts) as Hin.
  { intros r Hr. unfold regions in Hr.
    rewrite !elem_of_cons, elem_of_nil in Hr.
    destruct_or!; try contradiction; subst r;
      split; apply (bool_decide_unpack _); vm_compute; reflexivity. }
  repeat apply conj.
  - destruct (decide (region ∈ regions)) as [Hr|Hr]; [apply Hin, Hr|].
    unfold services.getRegionalURL.
    rewrite regionalRouting_unknown by exact Hr.
    apply (bool_decide_unpack _). vm_compute. reflexivity.
  - destruct (decide (region ∈ regions)) as [Hr|Hr]; [apply Hin, Hr|].
    unfold services.getMatchRegionalURL.
    rewrite continentalRouting_unknown by exact Hr.
    apply (bool_decide_unpack _). vm_compute. reflexivity.
  - unfold regions. rewrite !elem_of_cons, !elem_of_nil.
    intros H1 H2.
    destruct_or!; try contradiction; subst;
      vm_compute; intros Heq; (reflexivity || discriminate Heq).
Qed.

(** The platform hosts of [na] and [euw] differ. *)
Lemma routing_range_witness :
  services.getRegionalURL "na" ≠ services.getRegionalURL "euw".
Proof.
  intros Heq.
  apply (proj2 (proj2 (routing_range "" "na" "euw"))) in Heq.
  - discriminate Heq.
  - apply (bool_decide_unpack _). reflexivity.
  - apply (bool_decide_unpack _). reflexivity.
Defined.

(** The stub service has an override: [kr] is served as [na]. *)
Lemma override_bypasses_routing_witness :
  services.GetMatchHistory (RT := httptest.runtime)
    (decodeIDs := httptest.decodeIDs) (decodeMatch := httptest.decodeMatch)
    httptest.service "kr" "test-puuid" 10 httptest.start
  = services.GetMatchHistory (RT := httptest.runtime)
      (decodeIDs := httptest.decodeIDs) (decodeMatch := httptest.decodeMatch)
      httptest.service "na" "test-puuid" 10 httptest.start.
Proof.
  apply (override_bypasses_routing (RT := httptest.runtime)
           (decodeAccount := httptest.decodeObject)
           (decodeSummoner := httptest.decodeObject)
           (decodeIDs := httptest.decodeIDs)
           (decodeMatch := httptest.decodeMatch) httptest.service "kr" "na").
  discriminate.
Defined.

(** Without an override: [br] and [na] are of one continent. *)
Lemma match_operations_by_continent_witness :
  services.GetMatchHistory (RT := httptest2.runtime)
    (decodeIDs := httptest.decodeIDs) (decodeMatch := httptest.decodeMatch)
    httptest2.service "br" "test-puuid" 10 httptest2.start
  = services.GetMatchHistory (RT := httptest2.runtime)
      (decodeIDs := httptest.decodeIDs) (decodeMatch := httptest.decodeMatch)
      httptest2.service "na" "test-puuid" 10 httptest2.start.
Proof.
  apply (match_operations_by_continent (RT := httptest2.runtime)
           (decodeIDs := httptest.decodeIDs)
           (decodeMatch := httptest.decodeMatch) httptest2.service "br" "na").
  reflexivity.
Defined.

(** Without an override: the region [unknown] is served as [na]. *)
Lemma unknown_region_as_na_witness :
  services.GetSummonerByRiotID (RT := httptest2.runtime)
    (decodeAccount := httptest2.decodeAccount)
    (decodeSummoner := httptest2.decodeSummoner) httptest2.service
    "unknown" "TestPlayer" "NA1" httptest2.start
  = services.GetSummonerByRiotID (RT := httptest2.runtime)
      (decodeAccount := httptest2.decodeAccount)
      (decodeSummoner := httptest2.decodeSummoner) httptest2.service
      "na" "TestPlayer" "NA1" httptest2.start.
Proof.
  apply (unknown_region_as_na (RT := httptest2.runtime)
           (decodeAccount := httptest2.decodeAccount)
           (decodeSummoner := httptest2.decodeSummoner)
           (decodeIDs := httptest.decodeIDs)
           (decodeMatch := httptest.decodeMatch) httptest2.service "unknown").
  apply (bool_decide_unpack _). reflexivity.
Defined.

(** ** The handlers *)

Section Replies.
Context {RT : Runtime}.
Context {decodeRequest : Unmarshal api.matchRequest}
        {decodeSummonerRequest : Unmarshal api.summonerRequest}
        {strconv : api.Strconv}.
Import models api.
Implicit Types (handler : Handler) (request : http_Request) (s : Net).

(** X12. The summoner handler consults the service only for a body that
    decodes to a region, a game name and a tag line that are all
    non-empty: a body that does not decode, or with one of the three absent
    or empty, is answered 400 with the state untouched, whatever the
    service; otherwise the service is called once with the three strings
    and its result is written, an error as 500 with its message. *)
Theorem summoner_handler_validation handler request s :
  (∀ err,
     json_Decode (request_Body request) summonerRequest_zero = Err err →
     Handler_GetSummonerByRiotID handler request s
     = Some (http_Error "Invalid request body" 400, s))
  ∧ (∀ summonerRequest,
       json_Decode (request_Body request) summonerRequest_zero
       = Ok summonerRequest →
       summonerRequest_Region summonerRequest = ""
       ∨ summonerRequest_GameName summonerRequest = ""
       ∨ summonerRequest_TagLine summonerRequest = "" →
       Handler_GetSummonerByRiotID handler request s
       = Some (http_Error "region, gameName, and tagLine are required" 400,
               s))
  ∧ (∀ summonerRequest,
       json_Decode (request_Body request) summonerRequest_zero
       = Ok summonerRequest →
       summonerRequest_Region summonerRequest ≠ "" →
       summonerRequest_GameName summonerRequest ≠ "" →
       summonerRequest_TagLine summonerRequest ≠ "" →
       Handler_GetSummonerByRiotID handler request s
       = match GetSummonerByRiotID (riotService handler)
                 (summonerRequest_Region summonerRequest)
                 (summonerRequest_GameName summonerRequest)
                 (summonerRequest_TagLine summonerRequest) s with
         | Some (Ok summoner, s') => Some (json_Encode summoner, s')
         | Some (Err err, s') => Some (http_Error (Error err) 500, s')
         | None => None
         end).
Proof.
  unfold Handler_GetSummonerByRiotID. repeat apply conj.
  - intros err ->. reflexivity.
  - intros summonerRequest -> Hempty.
    rewrite bool_decide_eq_true_2 by exact Hempty. reflexivity.
  - intros summonerRequest -> Hr Hg Ht.
    rewrite bool_decide_eq_false_2 by tauto.
    unfold mbind, M_bind.
    destruct (GetSummonerByRiotID _ _ _ _ _) as [[[summoner|err] s']|];
      reflexivity.
Qed.

(** X13. The matches handler answers 400 with the state untouched,
    whatever the service: a body that does not decode; a body without a
    region, also when it names a player; a body with a region, no PUUID,
    and a game name or a tag line missing. *)
Theorem matches_handler_rejections handler request s :
  (∀ err,
     json_Decode (request_Body request) matchRequest_zero = Err err →
     GetMatchesByRiotID handler request s
     = Some (http_Error "Invalid request body" 400, s))
  ∧ (∀ matchRequest,
       json_Decode (request_Body request) matchRequest_zero
       = Ok matchRequest →
       Region matchRequest = "" →
       GetMatchesByRiotID handler request s
       = Some (http_Error "region is required" 400, s))
  ∧ (∀ matchRequest,
       json_Decode (request_Body request) matchRequest_zero
       = Ok matchRequest →
       Region matchRequest ≠ "" →
       PUUID matchRequest = "" →
       GameName matchRequest = "" ∨ TagLine matchRequest = "" →
       GetMatchesByRiotID handler request s
       = Some (http_Error
                 "either (gameName and tagLine) or puuid is required" 400,
               s)).
Proof.
  unfold GetMatchesByRiotID. repeat apply conj.
  - intros err ->. reflexivity.
  - intros matchRequest -> Hregion.
    rewrite bool_decide_eq_true_2 by exact Hregion. reflexivity.
  - intros matchRequest -> Hregion Hpuuid Hname.
    rewrite (bool_decide_eq_false_2 (Region matchRequest = ""))
      by exact Hregion.
    rewrite (bool_decide_eq_false_2 (PUUID matchRequest ≠ ""))
      by (rewrite Hpuuid; auto).
    rewrite (bool_decide_eq_false_2
               (GameName matchRequest ≠ "" ∧ TagLine matchRequest ≠ ""))
      by tauto.
    reflexivity.
Qed.

(** X14. When the matches handler has to resolve a Riot ID and the
    look-up of the summoner fails, it answers 500 with the message of the
    error, in the state the look-up left: the match history is not asked
    for. *)
Theorem matches_handler_lookup_failure handler request s s1
    (matchRequest : matchRequest) (err : error) :
  json_Decode (request_Body request) matchRequest_zero = Ok matchRequest →
  Region matchRequest ≠ "" →
  PUUID matchRequest = "" →
  GameName matchRequest ≠ "" →
  TagLine matchRequest ≠ "" →
  GetSummonerByRiotID (riotService handler) (Region matchRequest)
    (GameName matchRequest) (TagLine matchRequest) s = Some (Err err, s1) →
  GetMatchesByRiotID handler request s
  = Some (http_Error (Error err) 500, s1).
Proof.
  intros Hdec Hregion Hpuuid Hg Ht Hlookup.
  unfold GetMatchesByRiotID. rewrite Hdec.
  rewrite (bool_decide_eq_false_2 (Region matchRequest = ""))
    by exact Hregion.
  rewrite (bool_decide_eq_false_2 (PUUID matchRequest ≠ ""))
    by (rewrite Hpuuid; auto).
  rewrite (bool_decide_eq_true_2
             (GameName matchRequest ≠ "" ∧ TagLine matchRequest ≠ ""))
    by auto.
  unfold mbind, M_bind. rewrite Hlookup. reflexivity.
Qed.

(** X15. The codes of the replies. The two handlers of the JSON surface
    reply 200 with JSON, 400 or 500, and a 400 leaves the state as it was:
    a request is refused before the service is called. The handlers of the
    first generation, which validate nothing, reply 200 or 500. *)
Theorem handler_reply_codes handler request s :
  (∀ reply s',
     GetMatchesByRiotID handler request s = Some (reply, s') →
     (replyCode reply = 200 ∨ replyCode reply = 400 ∨ replyCode reply = 500)
     ∧ (replyCode reply = 400 → s' = s))
  ∧ (∀ reply s',
       Handler_GetSummonerByRiotID handler request s = Some (reply, s') →
       (replyCode reply = 200 ∨ replyCode reply = 400
        ∨ replyCode reply = 500)
       ∧ (replyCode reply = 400 → s' = s))
  ∧ (∀ reply s',
       GetMatches handler request s = Some (reply, s') →
       replyCode reply = 200 ∨ replyCode reply = 500)
  ∧ (∀ reply s',
       Vars_GetSummonerByRiotID handler request s = Some (reply, s') →
       replyCode reply = 200 ∨ replyCode reply = 500).
Proof.
  repeat apply conj; intros reply s'.
  - unfold GetMatchesByRiotID.
    destruct (json_Decode _ _) as [matchRequest|err];
      [|intros [= <- <-]; cbn; auto].
    case_bool_decide; [intros [= <- <-]; cbn; auto|].
    unfold mbind, M_bind.
    case_bool_decide; cbn [mret M_ret].
    + destruct (GetMatchHistory _ _ _ _ _) as [[[matches|err] s2]|];
        [..|discriminate]; intros [= <- <-]; cbn; split; auto; discriminate.
    + case_bool_decide; cbn [mret M_ret];
        [|intros [= <- <-]; cbn; auto].
      destruct (GetSummonerByRiotID _ _ _ _ _) as [[[summoner|err] s1]|];
        [..|discriminate]; cbn.
      * destruct (GetMatchHistory _ _ _ _ _) as [[[matches|err] s2]|];
          [..|discriminate]; intros [= <- <-]; cbn; split; auto;
          discriminate.
      * intros [= <- <-]. cbn. split; auto; discriminate.
  - unfold Handler_GetSummonerByRiotID.
    destruct (json_Decode _ _) as [summonerRequest|err];
      [|intros [= <- <-]; cbn; auto].
    case_bool_decide; [intros [= <- <-]; cbn; auto|].
    unfold mbind, M_bind.
    destruct (GetSummonerByRiotID _ _ _ _ _) as [[[summoner|err] s1]|];
      [..|discriminate]; intros [= <- <-]; cbn; split; auto; discriminate.
  - unfold GetMatches, mbind, M_bind.
    destruct (GetMatchHistory _ _ _ _ _) as [[[matches|err] s2]|];
      [..|discriminate]; intros [= <- <-]; cbn; auto.
  - unfold Vars_GetSummonerByRiotID, mbind, M_bind.
    destruct (GetSummonerByRiotID _ _ _ _ _) as [[[summoner|err] s1]|];
      [..|discriminate]; intros [= <- <-]; cbn; auto.
Qed.

End Replies.

(** A service that fails, asked through the two handlers. *)
Lemma summoner_handler_validation_witness :
  let handler := api.NewHandler httptest2.failing in
  let run body :=
    api.Handler_GetSummonerByRiotID
      (decodeSummonerRequest := httptest2.decodeSummonerRequest) handler
      (httptest2.post body) httptest2.start in
  run "invalid json"
  = Some (api.http_Error "Invalid request body" 400, httptest2.start)
  ∧ run httptest2.noTagPayload
    = Some (api.http_Error "region, gameName, and tagLine are required" 400,
            httptest2.start)
  ∧ run httptest2.summonerRequestPayload
    = Some (api.http_Error "API error" 500, httptest2.start).
Proof.
  intros handler run.
  pose proof (λ body,
    summoner_handler_validation (RT := httptest2.runtime)
      (decodeSummonerRequest := httptest2.decodeSummonerRequest) handler
      (httptest2.post body) httptest2.start) as Hrun.
  repeat apply conj.
  - apply (proj1 (Hrun "invalid json") httptest.invalid_character).
    reflexivity.
  - apply (proj1 (proj2 (Hrun httptest2.noTagPayload))
             {| api.summonerRequest_Region := "na";
                api.summonerRequest_GameName := "TestPlayer";
                api.summonerRequest_TagLine := "" |}).
    + reflexivity.
    + right. right. reflexivity.
  - unfold run.
    rewrite (proj2 (proj2 (Hrun httptest2.summonerRequestPayload))
               {| api.summonerRequest_Region := "na";
                  api.summonerRequest_GameName := "TestPlayer";
                  api.summonerRequest_TagLine := "NA1" |}
               eq_refl ltac:(discriminate) ltac:(discriminate)
               ltac:(discriminate)).
    reflexivity.
Defined.

Lemma matches_handler_rejections_witness :
  let handler := api.NewHandler httptest2.failing in
  let run body :=
    api.GetMatchesByRiotID (decodeRequest := httptest2.decodeRequest) handler
      (httptest2.post body) httptest2.start in
  run "invalid json"
  = Some (api.http_Error "Invalid request body" 400, httptest2.start)
  ∧ run "{}" = Some (api.http_Error "region is required" 400, httptest2.start)
  ∧ run httptest2.noTagPayload
    = Some (api.http_Error
              "either (gameName and tagLine) or puuid is required" 400,
            httptest2.start).
Proof.
  intros handler run.
  pose proof (λ body,
    matches_handler_rejections (RT := httptest2.runtime)
      (decodeRequest := httptest2.decodeRequest) handler
      (httptest2.post body) httptest2.start) as Hrun.
  repeat apply conj.
  - apply (proj1 (Hrun "invalid json") httptest.invalid_character).
    reflexivity.
  - apply (proj1 (proj2 (Hrun "{}")) api.matchRequest_zero); reflexivity.
  - apply (proj2 (proj2 (Hrun httptest2.noTagPayload))
             {| api.Region := "na"; api.GameName := "TestPlayer";
                api.TagLine := ""; api.PUUID := ""; api.Count := 0 |}).
    + reflexivity.
    + discriminate.
    + reflexivity.
    + right. reflexivity.
Defined.

Lemma matches_handler_lookup_failure_witness :
  api.GetMatchesByRiotID (RT := httptest2.runtime)
    (decodeRequest := httptest2.decodeRequest)
    (api.NewHandler httptest2.failing)
    (httptest2.post httptest2.summonerRequestPayload) httptest2.start
  = Some (api.http_Error "API error" 500, httptest2.start).
Proof.
  apply (matches_handler_lookup_failure (RT := httptest2.runtime)
           (decodeRequest := httptest2.decodeRequest)
           (api.NewHandler httptest2.failing)
           (httptest2.post httptest2.summonerRequestPayload)
           httptest2.start httptest2.start
           {| api.Region := "na"; api.GameName := "TestPlayer";
              api.TagLine := "NA1"; api.PUUID := ""; api.Count := 0 |}
           (errorString "API error")).
  - reflexivity.
  - discriminate.
  - reflexivity.
  - discriminate.
  - discriminate.
  - reflexivity.
Defined.

(** A body with no region: refused, the state untouched. *)
Lemma handler_reply_codes_witness :
  ∃ reply s',
    api.GetMatchesByRiotID (RT := httptest2.runtime)
      (decodeRequest := httptest2.decodeRequest)
      (api.NewHandler httptest2.failing) (httptest2.post "{}")
      httptest2.start = Some (reply, s')
    ∧ replyCode reply = 400
    ∧ s' = httptest2.start.
Proof.
  exists (api.http_Error "region is required" 400), httptest2.start.
  split; [reflexivity|]. split; [reflexivity|].
  apply (proj1 (handler_reply_codes (RT := httptest2.runtime)
                  (decodeRequest := httptest2.decodeRequest)
                  (decodeSummonerRequest := httptest2.decodeSummonerRequest)
                  (strconv := httptest.atoi)
                  (api.NewHandler httptest2.failing)
                  (httptest2.post "{}") httptest2.start)
           (api.http_Error "region is required" 400) httptest2.start).
  - reflexivity.
  - reflexivity.
Defined.

(** ** The handlers over the service *)

Section EndToEnd.
Context {RT : Runtime}.
Context {decodeAccount : Unmarshal services.accountInfo}
        {decodeSummoner : Unmarshal models.Summoner}
        {decodeIDs : Unmarshal (slice string)}
        {decodeMatch : Unmarshal services.rawMatch}
        {decodeRequest : Unmarshal api.matchRequest}.
Import models api.
Implicit Types (riotService : services.RiotService)
  (request : http_Request) (s : Net).

(** X16. A matches request that names a PUUID and no positive count makes
    the service call [Do] of its client with the request of the listing
    with [count=20]; when [Do] returns an answer with a status other than
    200, the handler replies 500 with a message that shows the status and
    the body of that answer, and [Do] was called that once. *)
Theorem matches_handler_upstream_status riotService request s
    (matchRequest : matchRequest) (response : Response) (w : World) :
  json_Decode (request_Body request) matchRequest_zero = Ok matchRequest →
  Region matchRequest ≠ "" →
  PUUID matchRequest ≠ "" →
  Count matchRequest ≤ 0 →
  let url :=
    services.buildURL riotService
      (services.getMatchRegionalURL (Region matchRequest))
      ("/lol/match/v5/matches/by-puuid/" +:+ PUUID matchRequest
         +:+ "/ids?start=0&count=20") in
  url_Parse url = None →
  Do (services.httpClient riotService) (requestFor riotService url)
    (world s) = (Ok response, w) →
  StatusCode response ≠ 200 →
  GetMatchesByRiotID (NewHandler (RiotService_interface riotService))
    request s
  = Some (http_Error
            ("failed to get match list: API request failed with status "
               +:+ fmt_d (StatusCode response) +:+ ": "
               +:+ content (Body response)) 500,
          after s (requestFor riotService url) w).
Proof.
  intros Hdec Hregion Hpuuid Hcount url Hurl Hdo Hcode.
  unfold GetMatchesByRiotID. rewrite Hdec.
  rewrite (bool_decide_eq_false_2 (Region matchRequest = ""))
    by exact Hregion.
  rewrite (bool_decide_eq_true_2 (PUUID matchRequest ≠ "")) by exact Hpuuid.
  rewrite (bool_decide_eq_true_2 (Count matchRequest ≤ 0)) by exact Hcount.
  unfold mbind at 1 2. unfold M_bind at 1 2. cbn [mret M_ret].
  cbn [api.riotService NewHandler RiotService_interface GetMatchHistory].
  rewrite GetMatchHistory_run.
  change (matchListURL riotService (Region matchRequest)
            (PUUID matchRequest) 20) with url.
  rewrite makeRequest_run, Hurl. cbv zeta. rewrite Hdo.
  rewrite bool_decide_eq_false_2 by exact Hcode. reflexivity.
Qed.

(** X17. A matches request that names a Riot ID and no PUUID, over the
    service: when the account and the summoner look-ups succeed, the
    reply is what is written for the history of the PUUID of the summoner
    answer, asked with the count of the request or 20, in the state the
    two look-ups left. *)
Theorem matches_by_riot_id riotService request s s1 s2
    (matchRequest : matchRequest) (accountInfo : services.accountInfo)
    (summoner : Summoner) :
  json_Decode (request_Body request) matchRequest_zero = Ok matchRequest →
  Region matchRequest ≠ "" →
  PUUID matchRequest = "" →
  GameName matchRequest ≠ "" →
  TagLine matchRequest ≠ "" →
  services.makeRequest riotService
    (accountEndpoint riotService (Region matchRequest)
       (GameName matchRequest) (TagLine matchRequest))
    services.accountInfo_zero s = Some (Ok accountInfo, s1) →
  services.makeRequest riotService
    (summonerURL riotService (Region matchRequest)
       (services.accountInfo_PUUID accountInfo))
    Summoner_zero s1 = Some (Ok summoner, s2) →
  GetMatchesByRiotID (NewHandler (RiotService_interface riotService))
    request s
  = written (services.GetMatchHistory riotService (Region matchRequest)
               (Summoner_PUUID summoner)
               (if bool_decide (Count matchRequest ≤ 0) then 20
                else Count matchRequest) s2).
Proof.
  intros Hdec Hregion Hpuuid Hg Ht Haccount Hsummoner.
  unfold GetMatchesByRiotID. rewrite Hdec.
  rewrite (bool_decide_eq_false_2 (Region matchRequest = ""))
    by exact Hregion.
  rewrite (bool_decide_eq_false_2 (PUUID matchRequest ≠ ""))
    by (rewrite Hpuuid; auto).
  rewrite (bool_decide_eq_true_2
             (GameName matchRequest ≠ "" ∧ TagLine matchRequest ≠ ""))
    by auto.
  unfold mbind, M_bind.
  cbn [api.riotService NewHandler RiotService_interface
       GetSummonerByRiotID GetMatchHistory].
  rewrite GetSummonerByRiotID_run, Haccount, GetSummonerByPUUID_run,
    Hsummoner.
  cbn [mret M_ret]. unfold written.
  destruct (services.GetMatchHistory _ _ _ _ _) as [[[matches|err] s3]|];
    reflexivity.
Qed.

End EndToEnd.

(** The provider limits the rate of the listing of [test-puuid]. *)
Lemma matches_handler_upstream_status_witness :
  api.GetMatchesByRiotID (RT := httptest2.runtime)
    (decodeRequest := httptest2.decodeRequest)
    (api.NewHandler
       (api.RiotService_interface
          (decodeAccount := httptest2.decodeAccount)
          (decodeSummoner := httptest2.decodeSummoner)
          (decodeIDs := httptest.decodeIDs)
          (decodeMatch := httptest.decodeMatch) httptest2.service))
    (httptest2.post httptest.requestPayload) httptest2.start
  = Some (api.http_Error
            "failed to get match list: API request failed with status 429: Rate limit exceeded"
            500,
          httptest2.requested
            [ "https://americas.api.riotgames.com/lol/match/v5/matches/by-puuid/test-puuid/ids?start=0&count=20" ]).
Proof.
  apply (matches_handler_upstream_status (RT := httptest2.runtime)
           (decodeAccount := httptest2.decodeAccount)
           (decodeSummoner := httptest2.decodeSummoner)
           (decodeIDs := httptest.decodeIDs)
           (decodeMatch := httptest.decodeMatch)
           (decodeRequest := httptest2.decodeRequest) httptest2.service
           (httptest2.post httptest.requestPayload) httptest2.start
           {| api.Region := "na"; api.GameName := ""; api.TagLine := "";
              api.PUUID := "test-puuid"; api.Count := 0 |}
           {| StatusCode := 429;
              Body := {| content := "Rate limit exceeded";
                         readErr := None |} |} []).
  - reflexivity.
  - discriminate.
  - discriminate.
  - cbn. lia.
  - reflexivity.
  - reflexivity.
  - discriminate.
Defined.

(** The history of TestPlayer#NA1 is asked for the PUUID of the summoner
    answer, with the count 20. *)
Lemma matches_by_riot_id_witness :
  api.GetMatchesByRiotID (RT := httptest2.runtime)
    (decodeRequest := httptest2.decodeRequest)
    (api.NewHandler
       (api.RiotService_interface
          (decodeAccount := httptest2.decodeAccount)
          (decodeSummoner := httptest2.decodeSummoner)
          (decodeIDs := httptest.decodeIDs)
          (decodeMatch := httptest.decodeMatch) httptest2.service))
    (httptest2.post httptest2.summonerRequestPayload) httptest2.start
  = Some (api.http_Error
            "failed to get match list: API request failed with status 429: Rate limit exceeded"
            500,
          httptest2.requested
            [ "https://americas.api.riotgames.com/riot/account/v1/accounts/by-riot-id/TestPlayer/NA1";
              "https://na1.api.riotgames.com/lol/summoner/v4/summoners/by-puuid/test-puuid";
              "https://americas.api.riotgames.com/lol/match/v5/matches/by-puuid/test-puuid/ids?start=0&count=20" ]).
Proof.
  rewrite (matches_by_riot_id (RT := httptest2.runtime)
             (decodeAccount := httptest2.decodeAccount)
             (decodeSummoner := httptest2.decodeSummoner)
             (decodeIDs := httptest.decodeIDs)
             (decodeMatch := httptest.decodeMatch)
             (decodeRequest := httptest2.decodeRequest) httptest2.service
             (httptest2.post httptest2.summonerRequestPayload)
             httptest2.start
             (httptest2.requested
                [ "https://americas.api.riotgames.com/riot/account/v1/accounts/by-riot-id/TestPlayer/NA1" ])
             (httptest2.requested
                [ "https://americas.api.riotgames.com/riot/account/v1/accounts/by-riot-id/TestPlayer/NA1";
                  "https://na1.api.riotgames.com/lol/summoner/v4/summoners/by-puuid/test-puuid" ])
             {| api.Region := "na"; api.GameName := "TestPlayer";
                api.TagLine := "NA1"; api.PUUID := ""; api.Count := 0 |}
             httptest2.accountDecoded httptest2.summonerDecoded).
  - vm_compute. reflexivity.
  - reflexivity.
  - discriminate.
  - reflexivity.
  - discriminate.
  - discriminate.
  - vm_compute. reflexivity.
  - vm_compute. reflexivity.
Defined.

(** ** Configuration *)

(** X18. [LoadConfig] never fails and never leaves the port empty: the
    port is the value of [PORT] when it is set and not empty, and the
    default otherwise, 8080 or, in the generation that reads a [.env]
    file, 8081; the key and the database URL are the values of their
    variables, empty when not set; one warning is logged exactly when the
    key is empty. *)
Theorem LoadConfig_defaults (env : gmap string string)
    (godotenv_Load : gmap string string → gmap string string) :
  let configuration := (config.LoadConfig env).1 in
  let logged := (config.LoadConfig env).2 in
  let configuration' := (config.LoadConfig_dotenv godotenv_Load env).1 in
  (config.ServerPort configuration ≠ ""
   ∧ (∀ port, env !! "PORT" = Some port → port ≠ "" →
              config.ServerPort configuration = port)
   ∧ (env !! "PORT" = None ∨ env !! "PORT" = Some "" →
      config.ServerPort configuration = "8080"))
  ∧ (config.RiotAPIKey configuration = default "" (env !! "RIOT_API_KEY")
     ∧ config.DatabaseURL configuration = default "" (env !! "DATABASE_URL"))
  ∧ ((config.RiotAPIKey configuration = "" →
      logged = ["Warning: RIOT_API_KEY not set. API calls will fail."])
     ∧ (config.RiotAPIKey configuration ≠ "" → logged = []))
  ∧ (config.ServerPort configuration' ≠ ""
     ∧ (∀ port, godotenv_Load env !! "PORT" = Some port → port ≠ "" →
                config.ServerPort configuration' = port)
     ∧ (godotenv_Load env !! "PORT" = None
        ∨ godotenv_Load env !! "PORT" = Some "" →
        config.ServerPort configuration' = "8081")).
Proof.
  intros configuration logged configuration'.
  subst configuration logged configuration'.
  unfold config.LoadConfig, config.LoadConfig_dotenv, config.os_Getenv.
  cbn [fst snd config.ServerPort config.RiotAPIKey config.DatabaseURL].
  repeat apply conj; try reflexivity.
  - case_bool_decide; [discriminate|assumption].
  - intros port -> Hport. cbn [default].
    rewrite bool_decide_eq_false_2 by exact Hport. reflexivity.
  - intros [->| ->]; reflexivity.
  - intros ->. reflexivity.
  - intros Hkey. rewrite bool_decide_eq_false_2 by exact Hkey. reflexivity.
  - case_bool_decide; [discriminate|assumption].
  - intros port -> Hport. cbn [default].
    rewrite bool_decide_eq_false_2 by exact Hport. reflexivity.
  - intros [->| ->]; reflexivity.
Qed.

(** An environment with a port and no key. *)
Lemma LoadConfig_defaults_witness :
  let env : gmap string string := {[ "PORT" := "9000" ]} in
  config.LoadConfig env
  = ({| config.RiotAPIKey := ""; config.ServerPort := "9000";
        config.DatabaseURL := "" |},
     ["Warning: RIOT_API_KEY not set. API calls will fail."])
  ∧ config.ServerPort (config.LoadConfig ∅).1 = "8080".
Proof.
  intros env.
  destruct (LoadConfig_defaults env id)
    as ((_ & Hport & _) & (Hkey & Hdb) & (Hlog & _) & _).
  destruct (LoadConfig_defaults ∅ id) as ((_ & _ & Hdefault) & _).
  split.
  - destruct (config.LoadConfig env) as [[key port db] logged] eqn:Hload.
    cbn [fst snd config.ServerPort config.RiotAPIKey config.DatabaseURL]
      in *.
    rewrite (Hport "9000" eq_refl ltac:(discriminate)), Hkey, Hdb.
    rewrite Hlog by (rewrite Hkey; reflexivity). reflexivity.
  - apply Hdefault. left. reflexivity.
Defined.

Section Startup.
Context {RT : Runtime} {T : Type} {decode : Unmarshal T}.

(** X19. The service that [main] builds from the configuration sends its
    requests through a client with the default transport, with the value of
    [RIOT_API_KEY] as [X-Riot-Token]; when the variable is not set the
    service is built all the same and the token is the empty string. *)
Theorem api_key_from_environment (env : gmap string string) (url : string)
    (target : T) (s : Net) :
  url_Parse url = None →
  let riotService :=
    services.NewRiotService (config.RiotAPIKey (config.LoadConfig env).1) in
  let request :=
    {| Method := "GET"; URL := url;
       Header := [("X-Riot-Token", default "" (env !! "RIOT_API_KEY"))] |} in
  ∃ r : result T,
    services.makeRequest riotService url target s
    = Some (r, {| world := (DefaultDo request (world s)).2;
                  sent := sent s ++ [request] |}).
Proof.
  intros Hurl riotService request.
  rewrite makeRequest_run, Hurl. cbv zeta.
  change (requestFor riotService url) with request.
  change (Do (services.httpClient riotService))
    with DefaultDo.
  destruct (DefaultDo _ _) as [[response|err] w]; cbn [snd].
  - case_bool_decide; [|eexists; reflexivity].
    destruct (json_Decode _ _); eexists; reflexivity.
  - eexists. reflexivity.
Qed.

End Startup.

(** With no key in the environment the token is empty. *)
Lemma api_key_from_environment_witness :
  ∃ r,
    services.makeRequest (RT := httptest2.runtime)
      (decode := httptest2.decodeAccount)
      (services.NewRiotService
         (config.RiotAPIKey (config.LoadConfig ∅).1))
      "https://americas.api.riotgames.com/riot/account/v1/accounts/by-riot-id/TestPlayer/NA1"
      services.accountInfo_zero httptest2.start
    = Some (r,
            @Build_Net httptest2.runtime []
              [ {| Method := "GET";
                   URL := "https://americas.api.riotgames.com/riot/account/v1/accounts/by-riot-id/TestPlayer/NA1";
                   Header := [("X-Riot-Token", "")] |} ]).
Proof.
  destruct (api_key_from_environment (RT := httptest2.runtime)
              (decode := httptest2.decodeAccount) ∅
              "https://americas.api.riotgames.com/riot/account/v1/accounts/by-riot-id/TestPlayer/NA1"
              services.accountInfo_zero httptest2.start eq_refl)
    as [r Hrun].
  exists r. exact Hrun.
Defined.
